(** * IMEI → PDF lookup application ([imei_pdf_app.py])

    A shallow embedding of the Streamlit script and the properties of its
    four parts: the sheet loader [get_google_sheet_data] (with its
    [st.cache_data] wrapper), the fetcher [download_pdf_as_bytes], the
    presenter [display_pdf_in_streamlit] and the search-button handler.

    Conventions of the embedding.
    - A Python [str] is a [string]: a sequence of characters with code
      points 0..255.  Characters are classified as CPython classifies these
      code points ([str.isspace], [str.isdigit]).
    - [bytes] is a [list byte].
    - A Python [dict] with string keys is a [gmap string _].
    - External collaborators (Google Sheets, HTTP, the Streamlit front end)
      are answers recorded in an environment [Env]; every call that leaves
      the script and every Streamlit element it draws is appended, in
      program order, to a trace of [effect]s.
    - Exceptions are values of [exn] carried by [result]; [exn] ranges over
      the subclasses of [Exception]. *)

From Stdlib Require Import Ascii String Strings.Byte QArith Lqa.
From stdpp Require Import gmap strings pretty list fin_maps.

Open Scope string_scope.
Open Scope list_scope.

(** ** Python strings *)

Module PyStr.

(** [str.isspace] on one character (code points below 256). *)
Definition isspace (c : ascii) : bool :=
  match c with
  | "009" | "010" | "011" | "012" | "013"
  | "028" | "029" | "030" | "031" | " " | "133" | "160" => true
  | _ => false
  end%char.

(** [str.isdigit] on one character: the decimal digits and, below 256,
    the superscripts two, three and one. *)
Definition isdigit_char (c : ascii) : bool :=
  match c with
  | "0" | "1" | "2" | "3" | "4" | "5" | "6" | "7" | "8" | "9"
  | "178" | "179" | "185" => true
  | _ => false
  end%char.

Fixpoint all_chars (p : ascii → bool) (s : string) : bool :=
  match s with
  | "" => true
  | String c s' => p c && all_chars p s'
  end.

(** [s.isdigit()]: every character is a digit and there is at least one. *)
Definition isdigit (s : string) : bool :=
  match s with
  | "" => false
  | _ => all_chars isdigit_char s
  end.

(** [len(s)] *)
Definition len (s : string) : Z := Z.of_nat (String.length s).

(** [bool(s)] *)
Definition truthy (s : string) : bool :=
  match s with "" => false | _ => true end.

Fixpoint lstrip (s : string) : string :=
  match s with
  | "" => ""
  | String c s' => if isspace c then lstrip s' else s
  end.

Definition rstrip (s : string) : string := String.rev (lstrip (String.rev s)).

(** [s.strip()] *)
Definition strip (s : string) : string := rstrip (lstrip s).

Fixpoint In_string (c : ascii) (s : string) : Prop :=
  match s with
  | "" => False
  | String c' s' => c' = c ∨ In_string c s'
  end.

(** [sub in s] *)
Definition contains (sub s : string) : Prop :=
  ∃ pre post, s = pre +:+ sub +:+ post.

End PyStr.

(** Characters the messages of the script use besides ASCII. *)
Definition nl : string := String "010" "".
Definition a_acute : string := String "225" "".
Definition i_acute : string := String "237" "".
Definition o_acute : string := String "243" "".
Definition u_acute : string := String "250" "".

(** ** Python values found in a sheet record *)

(** A cell of [worksheet.get_all_records()] is a [str], or — for a cell
    that reads as a number — an [int] or a [float]; [row.get] adds [None].
    A float is kept as the two things the script observes of it: its
    truth value and its [str()]. *)
Inductive pyval :=
| PyNone
| PyStr (s : string)
| PyInt (n : Z)
| PyFloat (nonzero : bool) (repr : string).

Definition str (v : pyval) : string :=
  match v with
  | PyNone => "None"
  | PyStr s => s
  | PyInt n => pretty n
  | PyFloat _ r => r
  end.

Definition truthy (v : pyval) : bool :=
  match v with
  | PyNone => false
  | PyStr s => PyStr.truthy s
  | PyInt n => negb (n =? 0)%Z
  | PyFloat nz _ => nz
  end.

Definition type_name (v : pyval) : string :=
  match v with
  | PyNone => "NoneType"
  | PyStr _ => "str"
  | PyInt _ => "int"
  | PyFloat _ _ => "float"
  end.

(** ** Exceptions *)

Inductive exn :=
| SpreadsheetNotFound (msg : string)   (* gspread.exceptions.SpreadsheetNotFound *)
| WorksheetNotFound (msg : string)     (* gspread.exceptions.WorksheetNotFound *)
| RequestException (msg : string)      (* requests.exceptions.RequestException and subclasses *)
| AttributeError (msg : string)
| OtherException (msg : string).       (* any other subclass of Exception *)

(** [str(e)] *)
Definition exn_str (e : exn) : string :=
  match e with
  | SpreadsheetNotFound m | WorksheetNotFound m | RequestException m
  | AttributeError m | OtherException m => m
  end.

Inductive result (A : Type) :=
| Ok (a : A)
| Raise (e : exn).
Arguments Ok {A} a.
Arguments Raise {A} e.

(** [v.strip()]: only [str] has the method. *)
Definition strip_method (v : pyval) : result string :=
  match v with
  | PyStr s => Ok (PyStr.strip s)
  | _ => Raise (AttributeError
           ("'" +:+ type_name v +:+ "' object has no attribute 'strip'"))
  end.

(** ** Data of the application *)

Abbreviation bytes := (list byte).
Abbreviation row := (gmap string pyval).
Abbreviation imei_map := (gmap string string).

Definition IMEI_COLUMN_HEADER : string := "IMEI".
Definition PDF_URL_COLUMN_HEADER : string := "PDF_URL".

(** [row.get(header)] *)
Definition row_get (r : row) (header : string) : pyval :=
  default PyNone (r !! header).

(** ** The outside world and the trace *)

(** What the script does that an observer can see, in program order: the
    Streamlit elements it draws and the calls that leave the process.  An
    entry says that the call was made; what it answered is in [Env]. *)
Inductive effect :=
| st_warning (body : string)
| st_error (body : string)
| st_success (body : string)
| st_markdown (body : string) (unsafe_allow_html : bool)
| st_download_button (label : string) (data : bytes)
                     (file_name mime help : string)
| gspread_authorize                       (* lines 39–44 *)
| client_open (title : string)            (* line 47 *)
| spreadsheet_worksheet (title : string)  (* line 50 *)
| worksheet_get_all_records               (* line 54 *)
| requests_get (url : string).            (* line 86 *)

Definition is_st_element (e : effect) : bool :=
  match e with
  | st_warning _ | st_error _ | st_success _ | st_markdown _ _
  | st_download_button _ _ _ _ _ => true
  | _ => false
  end.

Definition is_sheet_call (e : effect) : bool :=
  match e with
  | gspread_authorize | client_open _ | spreadsheet_worksheet _
  | worksheet_get_all_records => true
  | _ => false
  end.

Definition is_authorize (e : effect) : bool :=
  match e with gspread_authorize => true | _ => false end.

Definition is_http_call (e : effect) : bool :=
  match e with requests_get _ => true | _ => false end.

Definition is_download_button (e : effect) : bool :=
  match e with st_download_button _ _ _ _ _ => true | _ => false end.

(** A [requests.Response]; with [stream=True] the body is read when
    [.content] is first taken, which can itself fail. *)
Record Response := {
  status_code : Z;
  reason : string;
  url : string;
  content : result bytes;
}.

Record Worksheet := { get_all_records : result (list row) }.
Record Spreadsheet := { worksheet : string → result Worksheet }.

(** The single slot of [st.cache_data] for the argument-less loader: the
    value returned, the elements the call drew (replayed on a hit), and the
    time at which the entry stops being served. *)
Record CacheEntry := {
  cached_value : option imei_map;
  cached_elements : list effect;
  expires : Q;
}.

Record Env := {
  SPREADSHEET_NAME : string;              (* st.secrets["SPREADSHEET_NAME"] *)
  WORKSHEET_NAME : string;                (* st.secrets["WORKSHEET_NAME"] *)
  now : Q;                                (* the clock, in seconds *)
  authorize : result unit;                (* credentials and gspread.authorize *)
  open : string → result Spreadsheet;     (* client.open *)
  get : string → result Response;         (* requests.get(_, stream=True) *)
  markdown : string → result unit;        (* st.markdown *)
}.

(** ** The monad of the script: reader of [Env], state of the cache slot,
    writer of the trace, and exceptions. *)

Definition Py (A : Type) : Type :=
  Env → option CacheEntry → result A * option CacheEntry * list effect.

Definition ret {A} (a : A) : Py A := λ _ c, (Ok a, c, []).

Definition bind {A B} (m : Py A) (k : A → Py B) : Py B :=
  λ env c,
    match m env c with
    | (Ok a, c', t) =>
        match k a env c' with
        | (r, c'', t') => (r, c'', t ++ t')
        end
    | (Raise e, c', t) => (Raise e, c', t)
    end.

Notation "x <- m ;; k" := (bind m (λ x, k))
  (at level 100, m at next level, right associativity).
Notation "m ;; k" := (bind m (λ _, k))
  (at level 100, right associativity).

Definition emit (e : effect) : Py unit := λ _ c, (Ok tt, c, [e]).
Definition asks {A} (f : Env → A) : Py A := λ env c, (Ok (f env), c, []).
Definition lift {A} (r : result A) : Py A := λ _ c, (r, c, []).

(** A call to a collaborator: it is logged, then answers or raises. *)
Definition call {A} (e : effect) (answer : Env → result A) : Py A :=
  emit e ;; r <- asks answer ;; lift r.

(** [try: body  except ...: handlers]; a handler table answers [None] for
    an exception no clause matches, which then propagates. *)
Definition try_except {A} (body : Py A) (handlers : exn → option (Py A)) : Py A :=
  λ env c,
    match body env c with
    | (Ok a, c', t) => (Ok a, c', t)
    | (Raise e, c', t) =>
        match handlers e with
        | Some h => match h env c' with (r, c'', t') => (r, c'', t ++ t') end
        | None => (Raise e, c', t)
        end
    end.

(** The three components of a run. *)
Definition value_of {A} (x : result A * option CacheEntry * list effect) := x.1.1.
Definition cache_of {A} (x : result A * option CacheEntry * list effect) := x.1.2.
Definition trace_of {A} (x : result A * option CacheEntry * list effect) := x.2.

(** ** The loader (lines 22–81) *)

(** The [for row in records] loop of lines 56–63, threading [imei_data]. *)
Fixpoint for_row_in (records : list row) (imei_data : imei_map) : result imei_map :=
  match records with
  | [] => Ok imei_data
  | row :: records' =>
      let imei := str (row_get row IMEI_COLUMN_HEADER) in
      let pdf_url := row_get row PDF_URL_COLUMN_HEADER in
      if PyStr.truthy imei && truthy pdf_url then
        match strip_method pdf_url with
        | Ok url => for_row_in records' (<[PyStr.strip imei := url]> imei_data)
        | Raise e => Raise e
        end
      else for_row_in records' imei_data
  end.

Definition spreadsheet_not_found_message (spreadsheet_name : string) : string :=
  "Error: La hoja de c" +:+ a_acute +:+ "lculo '" +:+ spreadsheet_name
  +:+ "' no fue encontrada." +:+ nl
  +:+ "Verifica el nombre y que la cuenta de servicio tiene permiso de 'Lector'.".

Definition worksheet_not_found_message (worksheet_name spreadsheet_name : string) : string :=
  "Error: La hoja de trabajo '" +:+ worksheet_name
  +:+ "' no fue encontrada en '" +:+ spreadsheet_name +:+ "'." +:+ nl
  +:+ "Verifica el nombre de la hoja.".

Definition load_error_message (e : exn) : string :=
  "Ocurri" +:+ o_acute +:+ " un error al cargar los datos de Google Sheets: "
  +:+ exn_str e +:+ nl
  +:+ "Posibles causas:" +:+ nl
  +:+ "- La configuraci" +:+ o_acute
  +:+ "n de 'gcp_service_account' en Streamlit Secrets es incorrecta." +:+ nl
  +:+ "- La cuenta de servicio no tiene el rol de 'Lector' en el Google Sheet.".

(** The [try] block, lines 29–65. *)
Definition get_google_sheet_data_try : Py (option imei_map) :=
  call gspread_authorize authorize ;;
  spreadsheet_name <- asks SPREADSHEET_NAME ;;
  spreadsheet <- call (client_open spreadsheet_name) (λ env, open env spreadsheet_name) ;;
  worksheet_name <- asks WORKSHEET_NAME ;;
  sheet <- call (spreadsheet_worksheet worksheet_name)
                (λ _, worksheet spreadsheet worksheet_name) ;;
  records <- call worksheet_get_all_records (λ _, get_all_records sheet) ;;
  imei_data <- lift (for_row_in records ∅) ;;
  ret (Some imei_data).

(** The three [except] clauses, lines 67–81, in their order. *)
Definition get_google_sheet_data_except (e : exn) : option (Py (option imei_map)) :=
  match e with
  | SpreadsheetNotFound _ => Some (
      spreadsheet_name <- asks SPREADSHEET_NAME ;;
      emit (st_error (spreadsheet_not_found_message spreadsheet_name)) ;;
      ret None)
  | WorksheetNotFound _ => Some (
      worksheet_name <- asks WORKSHEET_NAME ;;
      spreadsheet_name <- asks SPREADSHEET_NAME ;;
      emit (st_error (worksheet_not_found_message worksheet_name spreadsheet_name)) ;;
      ret None)
  | _ => Some (
      emit (st_error (load_error_message e)) ;;
      ret None)
  end.

(** The function of line 23 without its decorator. *)
Definition get_google_sheet_data_wrapped : Py (option imei_map) :=
  try_except get_google_sheet_data_try get_google_sheet_data_except.

(** [@st.cache_data(ttl=...)] on an argument-less function: an entry that
    has not expired is served, with the elements of the cached call drawn
    again and the function not run; otherwise the function runs and, when
    it returns, its value (whatever it is, [None] included) and elements
    are stored with expiry [now + ttl]. *)
Definition st_cache_data (ttl : Q) (f : Py (option imei_map)) : Py (option imei_map) :=
  λ env c,
    let miss :=
      match f env c with
      | (Ok v, _, t) =>
          (Ok v,
           Some {| cached_value := v;
                   cached_elements := filter (λ e, is_st_element e = true) t;
                   expires := (now env + ttl)%Q |},
           t)
      | (Raise e, c', t) => (Raise e, c', t)
      end in
    match c with
    | Some entry =>
        if negb (Qle_bool (expires entry) (now env))
        then (Ok (cached_value entry), c, cached_elements entry)
        else miss
    | None => miss
    end.

Definition TTL : Q := 600.

(** Line 22–23: the name the script calls. *)
Definition get_google_sheet_data : Py (option imei_map) :=
  st_cache_data TTL get_google_sheet_data_wrapped.

(** ** The fetcher (lines 83–91) *)

(** [response.raise_for_status()]: an [HTTPError] (a [RequestException])
    for the 4xx and 5xx codes. *)
Definition raise_for_status (r : Response) : result unit :=
  let code := status_code r in
  if (400 <=? code)%Z && (code <? 500)%Z then
    Raise (RequestException
      (pretty code +:+ " Client Error: " +:+ reason r +:+ " for url: " +:+ url r))
  else if (500 <=? code)%Z && (code <? 600)%Z then
    Raise (RequestException
      (pretty code +:+ " Server Error: " +:+ reason r +:+ " for url: " +:+ url r))
  else Ok tt.

Definition download_error_message (pdf_url : string) (e : exn) : string :=
  "Error al descargar el PDF desde: " +:+ pdf_url +:+ nl
  +:+ "Detalle: " +:+ exn_str e.

Definition download_pdf_as_bytes (pdf_url : string) : Py (option bytes) :=
  try_except
    (response <- call (requests_get pdf_url) (λ env, get env pdf_url) ;;
     lift (raise_for_status response) ;;
     body <- lift (content response) ;;
     ret (Some body))
    (λ e, match e with
          | RequestException _ => Some (
              emit (st_error (download_error_message pdf_url e)) ;;
              ret None)
          | _ => None
          end).

(** ** The presenter (lines 93–118) *)

Definition b64_alphabet : string :=
  "ABCDEFGHIJKLMNOPQRSTUVWXYZabcdefghijklmnopqrstuvwxyz0123456789+/".

Definition b64_digit (n : N) : ascii :=
  match String.get (N.to_nat n) b64_alphabet with
  | Some c => c
  | None => "="%char
  end.

(** [base64.b64encode(data).decode('utf-8')] *)
Fixpoint b64encode (data : bytes) : string :=
  match data with
  | [] => ""
  | [x] =>
      let a := Byte.to_N x in
      String (b64_digit (a / 4)) (String (b64_digit (a mod 4 * 16)) "==")
  | [x; y] =>
      let a := Byte.to_N x in
      let b := Byte.to_N y in
      String (b64_digit (a / 4))
        (String (b64_digit (a mod 4 * 16 + b / 16))
           (String (b64_digit (b mod 16 * 4)) "="))
  | x :: y :: z :: rest =>
      let a := Byte.to_N x in
      let b := Byte.to_N y in
      let c := Byte.to_N z in
      String (b64_digit (a / 4))
        (String (b64_digit (a mod 4 * 16 + b / 16))
           (String (b64_digit (b mod 16 * 4 + c / 64))
              (String (b64_digit (c mod 64)) (b64encode rest))))
  end%N.

Definition dq : string := String "034" "".

Definition pdf_display (b64_pdf : string) : string :=
  "<iframe src=" +:+ dq +:+ "data:application/pdf;base64," +:+ b64_pdf +:+ dq
  +:+ " width=" +:+ dq +:+ "100%" +:+ dq
  +:+ " height=" +:+ dq +:+ "700px" +:+ dq
  +:+ " type=" +:+ dq +:+ "application/pdf" +:+ dq +:+ "></iframe>".

Definition embed_warning_message (e : exn) : string :=
  "No se pudo incrustar el PDF en la p" +:+ a_acute +:+ "gina (a" +:+ u_acute
  +:+ "n puedes descargarlo)." +:+ nl +:+ "Detalle: " +:+ exn_str e.

Definition no_pdf_message : string :=
  "No hay PDF disponible para mostrar o descargar.".

(** [bool(pdf_bytes)] for [bytes] or [None] *)
Definition truthy_bytes (pdf_bytes : option bytes) : bool :=
  match pdf_bytes with
  | Some (_ :: _) => true
  | _ => false
  end.

Definition download_button (pdf_bytes : bytes) : effect :=
  st_download_button "Descargar PDF" pdf_bytes "documento_imei.pdf"
    "application/pdf" "Haz clic para descargar el PDF asociado al IMEI.".

Definition display_pdf_in_streamlit (pdf_bytes : option bytes) : Py unit :=
  if truthy_bytes pdf_bytes then
    let data := default [] pdf_bytes in
    emit (download_button data) ;;
    try_except
      (let body := pdf_display (b64encode data) in
       call (st_markdown body true) (λ env, markdown env body))
      (λ e, Some (emit (st_warning (embed_warning_message e))))
  else
    emit (st_warning no_pdf_message).

(** ** The search-button handler (lines 141–158) *)

Definition empty_input_message : string := "Por favor, ingresa un IMEI.".

Definition invalid_input_message : string :=
  "El IMEI debe ser un n" +:+ u_acute +:+ "mero de 15 d" +:+ i_acute
  +:+ "gitos y contener solo n" +:+ u_acute +:+ "meros.".

Definition found_message (imei_input : string) : string :=
  "IMEI '" +:+ imei_input +:+ "' encontrado. Intentando descargar el PDF...".

Definition not_found_message (imei_input : string) : string :=
  "No se encontr" +:+ o_acute +:+ " un documento PDF asociado al IMEI '"
  +:+ imei_input +:+ "' en la base de datos.".

(** [bool(imei_data_map)] for a [dict] or [None] *)
Definition truthy_map (imei_data_map : option imei_map) : bool :=
  match imei_data_map with
  | Some m => bool_decide (m ≠ ∅)
  | None => false
  end.

(** [bool(d.get(k))] for a [dict] of strings *)
Definition truthy_url (pdf_url : option string) : bool :=
  match pdf_url with
  | Some s => PyStr.truthy s
  | None => false
  end.

(** Lines 149–158: what the handler does with the loader's answer. *)
Definition show_result (imei_input : string) (imei_data_map : option imei_map)
    : Py unit :=
  if truthy_map imei_data_map then
    let pdf_url := default ∅ imei_data_map !! imei_input in
    if truthy_url pdf_url then
      emit (st_success (found_message imei_input)) ;;
      pdf_bytes <- download_pdf_as_bytes (default "" pdf_url) ;;
      display_pdf_in_streamlit pdf_bytes
    else
      emit (st_error (not_found_message imei_input))
  else
    ret tt.

(** The body of [if st.button(...)], lines 141–158, run when the button is
    pressed with [imei_input] in the text field. *)
Definition search (imei_input : string) : Py unit :=
  if negb (PyStr.truthy imei_input) then
    emit (st_warning empty_input_message)
  else if negb (PyStr.len imei_input =? 15)%Z || negb (PyStr.isdigit imei_input) then
    emit (st_warning invalid_input_message)
  else
    imei_data_map <- get_google_sheet_data ;;
    show_result imei_input imei_data_map.

(** ** Vocabulary of the statements *)

(** The four calls a complete read of the sheet makes, in order. *)
Definition sheet_calls (env : Env) : list effect :=
  [ gspread_authorize;
    client_open (SPREADSHEET_NAME env);
    spreadsheet_worksheet (WORKSHEET_NAME env);
    worksheet_get_all_records ].

Definition st_elements (t : list effect) : list effect :=
  filter (λ e, is_st_element e = true) t.
Definition sheet_calls_in (t : list effect) : list effect :=
  filter (λ e, is_sheet_call e = true) t.
Definition http_calls_in (t : list effect) : list effect :=
  filter (λ e, is_http_call e = true) t.
Definition download_buttons_in (t : list effect) : list effect :=
  filter (λ e, is_download_button e = true) t.
(** How many runs of the loader a trace holds: each starts with the
    authorisation. *)
Definition loads_in (t : list effect) : nat :=
  length (filter (λ e, is_authorize e = true) t).
Definition not_sheet_calls_in (t : list effect) : list effect :=
  filter (λ e, is_sheet_call e = false) t.

(** The input passes the validation of lines 141–144. *)
Definition valid_imei (imei_input : string) : Prop :=
  String.length imei_input = 15%nat ∧ PyStr.isdigit imei_input = true.

(** Line 62 lets the row into the mapping. *)
Definition included (r : row) : bool :=
  PyStr.truthy (str (row_get r IMEI_COLUMN_HEADER))
  && truthy (row_get r PDF_URL_COLUMN_HEADER).

(** The key line 63 stores the row under. *)
Definition key_of (r : row) : string :=
  PyStr.strip (str (row_get r IMEI_COLUMN_HEADER)).

Definition is_str (v : pyval) : bool :=
  match v with PyStr _ => true | _ => false end.

(** A cache slot as the decorator leaves it: only elements are replayed. *)
Definition cache_wf (c : option CacheEntry) : Prop :=
  ∀ entry, c = Some entry →
    Forall (λ e, is_st_element e = true) (cached_elements entry).

(** The error names what it is about. *)
Definition descriptive (env : Env) (e : exn) (msg : string) : Prop :=
  match e with
  | SpreadsheetNotFound _ => PyStr.contains (SPREADSHEET_NAME env) msg
  | WorksheetNotFound _ =>
      PyStr.contains (WORKSHEET_NAME env) msg
  | _ => PyStr.contains (exn_str e) msg
  end.

(** What the handler does with an input that fails validation. *)
Definition rejection (imei_input : string) : effect :=
  match imei_input with
  | "" => st_warning empty_input_message
  | _ => st_warning invalid_input_message
  end.

(** The message of the [except] clause that catches [e]. *)
Definition load_failure_message (env : Env) (e : exn) : string :=
  match e with
  | SpreadsheetNotFound _ => spreadsheet_not_found_message (SPREADSHEET_NAME env)
  | WorksheetNotFound _ =>
      worksheet_not_found_message (WORKSHEET_NAME env) (SPREADSHEET_NAME env)
  | _ => load_error_message e
  end.

(** Every step of the read succeeds and the worksheet holds [records]. *)
Definition sheet_answers (env : Env) (records : list row) : Prop :=
  ∃ ss sh,
    authorize env = Ok tt
    ∧ open env (SPREADSHEET_NAME env) = Ok ss
    ∧ worksheet ss (WORKSHEET_NAME env) = Ok sh
    ∧ get_all_records sh = Ok records.

(** The decorator has nothing to serve: the slot is empty or expired. *)
Definition cache_misses (env : Env) (c : option CacheEntry) : Prop :=
  match c with
  | None => True
  | Some entry => (expires entry <= now env)%Q
  end.

(** The 4xx and 5xx codes. *)
Definition error_status (code : Z) : Prop := (400 ≤ code < 600)%Z.

(** The fetch of [pdf_url] ends in the [except] clause of line 89. *)
Definition fetch_fails (env : Env) (pdf_url : string) : Prop :=
  (∃ msg, get env pdf_url = Raise (RequestException msg))
  ∨ (∃ r, get env pdf_url = Ok r
          ∧ (error_status (status_code r)
             ∨ ∃ msg, content r = Raise (RequestException msg))).

(** What the loader leaves in the cache slot: a value with nothing to
    replay, or [None] with the one error it drew. *)
Definition cache_inv (c : option CacheEntry) : Prop :=
  ∀ entry, c = Some entry →
    cached_elements entry = []
    ∨ (cached_value entry = None ∧ ∃ msg, cached_elements entry = [st_error msg]).

(** The script is run once per press of the button, each run finding the
    world as it then is and the cache slot as the previous run left it. *)
Fixpoint session (presses : list (Env * string)) (c : option CacheEntry)
    : option CacheEntry * list effect :=
  match presses with
  | [] => (c, [])
  | (env, imei_input) :: rest =>
      let r := search imei_input env c in
      let r' := session rest (cache_of r) in
      (r'.1, trace_of r ++ r'.2)
  end.

(** A character of the base64 alphabet, or the padding sign. *)
Definition is_b64_char (ch : ascii) : bool :=
  negb (PyStr.all_chars (λ a, negb (Ascii.eqb a ch)) (b64_alphabet +:+ "=")).

(** One of the ten decimal digits 0–9. *)
Definition is_decimal_digit (ch : ascii) : bool :=
  match ch with
  | "0" | "1" | "2" | "3" | "4" | "5" | "6" | "7" | "8" | "9" => true
  | _ => false
  end%char.

(** ** Sample data *)

Definition ascii_bytes (s : string) : bytes := list_byte_of_string s.

Definition sample_imei : string := "123456789012345".
Definition sample_url : string := "https://example.com/doc.pdf".
Definition sample_pdf : bytes := ascii_bytes "%PDF-1.4".

(** A Google Drive holding one spreadsheet with one worksheet. *)
Definition drive (title sheet_title : string) (records : result (list row))
    : string → result Spreadsheet :=
  λ t,
    if decide (t = title) then
      Ok {| worksheet := λ w,
              if decide (w = sheet_title)
              then Ok {| get_all_records := records |}
              else Raise (WorksheetNotFound w) |}
    else Raise (SpreadsheetNotFound "").

(** A web where every URL answers with the same status and body. *)
Definition web (code : Z) (phrase : string) (body : bytes)
    : string → result Response :=
  λ u, Ok {| status_code := code; reason := phrase; url := u; content := Ok body |}.

Definition sample_env_at (time : Q) (records : list row)
    (answer : string → result Response) : Env :=
  {| SPREADSHEET_NAME := "Inventario";
     WORKSHEET_NAME := "Hoja 1";
     now := time;
     authorize := Ok tt;
     open := drive "Inventario" "Hoja 1" (Ok records);
     get := answer;
     markdown := λ _, Ok tt |}.

Definition sample_env (records : list row) (answer : string → result Response) : Env :=
  sample_env_at 0 records answer.

(** The service account cannot see a spreadsheet called "Inventario". *)
Definition env_no_spreadsheet : Env :=
  {| SPREADSHEET_NAME := "Inventario"; WORKSHEET_NAME := "Hoja 1"; now := 0;
     authorize := Ok tt; open := drive "Otro" "Hoja 1" (Ok []);
     get := web 200 "OK" []; markdown := λ _, Ok tt |}.

(** The credentials are refused. *)
Definition env_bad_credentials : Env :=
  {| SPREADSHEET_NAME := "Inventario"; WORKSHEET_NAME := "Hoja 1"; now := 0;
     authorize := Raise (OtherException "Invalid JWT Signature.");
     open := drive "Inventario" "Hoja 1" (Ok []);
     get := web 200 "OK" []; markdown := λ _, Ok tt |}.

Definition record (imei pdf_url : pyval) : row :=
  {[ IMEI_COLUMN_HEADER := imei; PDF_URL_COLUMN_HEADER := pdf_url ]}.

(** A sheet in which one device appears twice, once as a numeric cell. *)
Definition duplicate_records : list row :=
  [ record (PyStr sample_imei) (PyStr "https://example.com/old.pdf");
    record (PyInt 123456789012345) (PyStr " https://example.com/new.pdf ");
    record (PyStr "000000000000000") (PyStr sample_url) ].

(** A sheet whose first row has a numeric cell in the PDF_URL column. *)
Definition numeric_url_records : list row :=
  [ record (PyStr "490154203237518") (PyInt 42);
    record (PyStr sample_imei) (PyStr sample_url) ].

(** The same, with the identifier cell of that row left blank. *)
Definition blank_imei_numeric_url_records : list row :=
  [ record (PyStr "") (PyInt 42);
    record (PyStr sample_imei) (PyStr sample_url) ].

(** A sheet without an IMEI column. *)
Definition no_imei_column_records : list row :=
  [ {[ PDF_URL_COLUMN_HEADER := PyStr sample_url ]} ].

Definition ok_web : string → result Response := web 200 "OK" sample_pdf.

(** A front end on which drawing the frame fails. *)
Definition env_markdown_fails : Env :=
  {| SPREADSHEET_NAME := "Inventario"; WORKSHEET_NAME := "Hoja 1"; now := 0;
     authorize := Ok tt; open := drive "Inventario" "Hoja 1" (Ok []);
     get := ok_web;
     markdown := λ _, Raise (OtherException "MessageSizeError") |}.

(** The sheet at three moments: when first read, five minutes later with
    the row gone, and fifteen minutes later with a new reference. *)
Definition env_t0 : Env :=
  sample_env_at 0 [record (PyStr sample_imei) (PyStr sample_url)] ok_web.
Definition env_t300 : Env := sample_env_at 300 [] ok_web.
Definition env_t900 : Env :=
  sample_env_at 900
    [record (PyStr sample_imei) (PyStr "https://example.com/v2.pdf")] ok_web.

(** A sheet whose only row has a blank reference cell that is not empty. *)
Definition blank_url_records : list row :=
  [ record (PyStr sample_imei) (PyStr " ");
    record (PyStr "000000000000000") (PyStr sample_url) ].

(** A web that cannot be reached. *)
Definition no_web : string → result Response :=
  λ _, Raise (RequestException "Max retries exceeded").

(** A web whose client fails outside the exceptions of [requests]. *)
Definition broken_web : string → result Response :=
  λ _, Raise (OtherException "idna codec failed").

(** A web that answers 200 with no body. *)
Definition empty_web : string → result Response := web 200 "OK" [].

(** Twelve decimal digits followed by the superscripts two, three, one. *)
Definition superscript_input : string :=
  "123456789012" +:+ String "178" (String "179" (String "185" "")).

(** The sheet holds the sample device; drawing the frame fails. *)
Definition env_frame_fails : Env :=
  {| SPREADSHEET_NAME := "Inventario"; WORKSHEET_NAME := "Hoja 1"; now := 0;
     authorize := Ok tt;
     open := drive "Inventario" "Hoja 1"
               (Ok [record (PyStr sample_imei) (PyStr sample_url)]);
     get := ok_web;
     markdown := λ _, Raise (OtherException "MessageSizeError") |}.

(** * Properties *)

(** ** Examples: the embedding on concrete inputs *)

Example b64encode_Man : b64encode (ascii_bytes "Man") = "TWFu".
Proof. reflexivity. Qed.
Example b64encode_Ma : b64encode (ascii_bytes "Ma") = "TWE=".
Proof. reflexivity. Qed.
Example b64encode_M : b64encode (ascii_bytes "M") = "TQ==".
Proof. reflexivity. Qed.
Example b64encode_pdf : b64encode sample_pdf = "JVBERi0xLjQ=".
Proof. reflexivity. Qed.
Example strip_ex : PyStr.strip "  12 3  " = "12 3".
Proof. reflexivity. Qed.
Example str_int_ex : str (PyInt (-350)) = "-350" ∧ str (PyInt 0) = "0".
Proof. split; reflexivity. Qed.

(** Spec scenario "hit": the download action offers the fetched bytes. *)
Example scenario_hit :
  trace_of (search sample_imei
              (sample_env [record (PyInt 123456789012345) (PyStr sample_url)]
                          (web 200 "OK" sample_pdf))
              None)
  = sheet_calls (sample_env [] (web 200 "OK" sample_pdf))
    ++ [ st_success (found_message sample_imei);
         requests_get sample_url;
         download_button sample_pdf;
         st_markdown (pdf_display "JVBERi0xLjQ=") true ].
Proof. vm_compute. reflexivity. Qed.

(** Spec scenario "fetch failure": HTTP 404. *)
Example scenario_404 :
  st_elements (trace_of (search sample_imei
              (sample_env [record (PyStr sample_imei) (PyStr sample_url)]
                          (web 404 "Not Found" []))
              None))
  = [ st_success (found_message sample_imei);
      st_error ("Error al descargar el PDF desde: https://example.com/doc.pdf"
                +:+ nl +:+ "Detalle: 404 Client Error: Not Found for url: https://example.com/doc.pdf");
      st_warning no_pdf_message ].
Proof. vm_compute. reflexivity. Qed.

(** ** Validation (lines 141–144) *)

Lemma all_chars_In (p : ascii → bool) (s : string) (ch : ascii) :
  PyStr.all_chars p s = true → PyStr.In_string ch s → p ch = true.
Proof.
  induction s as [|c' s' IH]; simpl; [tauto|].
  intros [Hc Hs]%andb_prop [<-|Hin]; auto.
Qed.

Lemma isdigit_In (s : string) (ch : ascii) :
  PyStr.isdigit s = true → PyStr.In_string ch s → PyStr.isdigit_char ch = true.
Proof.
  destruct s as [|c s']; [discriminate|].
  unfold PyStr.isdigit. apply all_chars_In.
Qed.

Lemma len_15 (s : string) :
  (PyStr.len s =? 15)%Z = true ↔ String.length s = 15%nat.
Proof. unfold PyStr.len. rewrite Z.eqb_eq. lia. Qed.

(** What the validation does turn away: an input that is empty, whose
    length is not 15, or that contains a character [str.isdigit] does not
    accept is answered with exactly one warning; the trace holds nothing
    else — no call to the sheet, no HTTP request — and the cache slot is
    left as it was. *)
Theorem search_rejects_what_isdigit_rejects
    (imei_input : string) (env : Env) (c : option CacheEntry) :
  imei_input = ""
  ∨ String.length imei_input ≠ 15%nat
  ∨ (∃ ch, PyStr.In_string ch imei_input ∧ PyStr.isdigit_char ch = false) →
  search imei_input env c = (Ok tt, c, [rejection imei_input])
  ∧ sheet_calls_in (trace_of (search imei_input env c)) = []
  ∧ http_calls_in (trace_of (search imei_input env c)) = [].
Proof.
  intros H.
  assert (Hrun : search imei_input env c = (Ok tt, c, [rejection imei_input])).
  { unfold search.
    destruct imei_input as [|c0 s0]; [reflexivity|].
    cbn [PyStr.truthy negb].
    destruct (PyStr.len (String c0 s0) =? 15)%Z eqn:Hlen; cbn [negb orb];
      [|reflexivity].
    destruct (PyStr.isdigit (String c0 s0)) eqn:Hdig; cbn [negb];
      [|reflexivity].
    exfalso. destruct H as [H|[H|(ch & Hin & Hch)]].
    - discriminate.
    - apply H. by apply len_15.
    - rewrite (isdigit_In _ _ Hdig Hin) in Hch. discriminate. }
  rewrite Hrun. repeat split.
  - by destruct imei_input.
  - by destruct imei_input.
Qed.

Lemma search_rejects_what_isdigit_rejects_witness :
  search "12345678901234a" (sample_env [] (web 200 "OK" sample_pdf)) None
  = (Ok tt, None, [st_warning invalid_input_message]).
Proof.
  apply (search_rejects_what_isdigit_rejects "12345678901234a").
  right. right. exists "a"%char. split; [|reflexivity].
  simpl. tauto.
Defined.

(** C1 fails on the code.  [str.isdigit] accepts more than the ten decimal
    digits: an input of fifteen characters that ends in the superscripts
    two, three and one holds characters that are not decimal digits, yet it
    passes the validation of lines 141–144 — no warning is drawn, the sheet
    is read and the key is looked up. *)
Theorem C1_superscript_digits_pass_validation :
  String.length superscript_input = 15%nat
  ∧ (∃ ch, PyStr.In_string ch superscript_input ∧ is_decimal_digit ch = false)
  ∧ PyStr.isdigit superscript_input = true
  ∧ search superscript_input
      (sample_env [record (PyStr sample_imei) (PyStr sample_url)] ok_web) None
    = (Ok tt,
       Some {| cached_value := Some {[ sample_imei := sample_url ]};
               cached_elements := []; expires := (0 + TTL)%Q |},
       sheet_calls (sample_env [] ok_web)
       ++ [st_error (not_found_message superscript_input)]).
Proof.
  split; [reflexivity|]. split.
  - exists "178"%char. split; [|reflexivity]. vm_compute. tauto.
  - split; [reflexivity|]. vm_compute. reflexivity.
Qed.

(** ** The loader *)

(** The [try] block either reads the whole sheet and builds the mapping,
    or stops at the first step that raises. *)
Lemma get_google_sheet_data_try_cases (env : Env) (c : option CacheEntry) :
  (∃ ss sh records m,
      authorize env = Ok tt
      ∧ open env (SPREADSHEET_NAME env) = Ok ss
      ∧ worksheet ss (WORKSHEET_NAME env) = Ok sh
      ∧ get_all_records sh = Ok records
      ∧ for_row_in records ∅ = Ok m
      ∧ get_google_sheet_data_try env c = (Ok (Some m), c, sheet_calls env))
  ∨ (∃ e n,
      (1 ≤ n ≤ 4)%nat
      ∧ get_google_sheet_data_try env c = (Raise e, c, take n (sheet_calls env))).
Proof.
  unfold get_google_sheet_data_try, call, bind, emit, asks, lift, ret, sheet_calls.
  destruct (authorize env) as [[]|e] eqn:Ha; cbn.
  2:{ right. exists e, 1%nat. split; [lia|reflexivity]. }
  destruct (open env (SPREADSHEET_NAME env)) as [ss|e] eqn:Ho; cbn.
  2:{ right. exists e, 2%nat. split; [lia|reflexivity]. }
  destruct (worksheet ss (WORKSHEET_NAME env)) as [sh|e] eqn:Hw; cbn.
  2:{ right. exists e, 3%nat. split; [lia|reflexivity]. }
  destruct (get_all_records sh) as [records|e] eqn:Hr; cbn.
  2:{ right. exists e, 4%nat. split; [lia|reflexivity]. }
  destruct (for_row_in records ∅) as [m|e] eqn:Hf; cbn.
  2:{ right. exists e, 4%nat. split; [lia|reflexivity]. }
  left. exists ss, sh, records, m. auto 10.
Qed.

Lemma append_assoc (s1 s2 s3 : string) :
  s1 +:+ s2 +:+ s3 = (s1 +:+ s2) +:+ s3.
Proof.
  induction s1 as [|a s1 IH]; [reflexivity|].
  change (String a (s1 +:+ s2 +:+ s3) = String a ((s1 +:+ s2) +:+ s3)).
  by rewrite IH.
Qed.

Lemma contains_here (sub post : string) : PyStr.contains sub (sub +:+ post).
Proof. by exists "", post. Qed.

Lemma append_empty_r (s : string) : s +:+ "" = s.
Proof.
  induction s as [|a s IH]; [reflexivity|].
  change (String a (s +:+ "") = String a s). by rewrite IH.
Qed.

Lemma contains_refl (sub : string) : PyStr.contains sub sub.
Proof. exists "", "". by rewrite append_empty_r. Qed.

Lemma contains_app_r (sub p s : string) :
  PyStr.contains sub s → PyStr.contains sub (p +:+ s).
Proof.
  intros (pre & post & ->). exists (p +:+ pre), post.
  by rewrite append_assoc.
Qed.

Create HintDb contains.
#[local] Hint Resolve contains_here contains_refl contains_app_r : contains.

Lemma load_failure_message_descriptive (env : Env) (e : exn) :
  descriptive env e (load_failure_message env e).
Proof.
  destruct e; cbn;
    unfold spreadsheet_not_found_message, worksheet_not_found_message,
      load_error_message; auto 10 with contains.
Qed.

Lemma get_google_sheet_data_wrapped_raise
    (env : Env) (c c' : option CacheEntry) (e : exn) (t : list effect) :
  get_google_sheet_data_try env c = (Raise e, c', t) →
  get_google_sheet_data_wrapped env c
  = (Ok None, c', t ++ [st_error (load_failure_message env e)]).
Proof.
  intros H. unfold get_google_sheet_data_wrapped, try_except. rewrite H.
  by destruct e.
Qed.

Lemma get_google_sheet_data_wrapped_ok
    (env : Env) (c c' : option CacheEntry) (v : option imei_map) (t : list effect) :
  get_google_sheet_data_try env c = (Ok v, c', t) →
  get_google_sheet_data_wrapped env c = (Ok v, c', t).
Proof.
  intros H. unfold get_google_sheet_data_wrapped, try_except. by rewrite H.
Qed.

(** C4.  The loader never lets an exception out.  Whatever a step of the
    [try] block raises — credentials, the network, the sheet's structure, a
    cell — the loader returns [None] after drawing one error that names its
    subject; a spreadsheet or a worksheet that does not exist is reported
    with its name. *)
Theorem C4_load_errors_reported (env : Env) (c : option CacheEntry) :
  (∃ v, value_of (get_google_sheet_data_wrapped env c) = Ok v)
  ∧ (∀ e, value_of (get_google_sheet_data_try env c) = Raise e →
       get_google_sheet_data_wrapped env c
       = (Ok None, c,
          trace_of (get_google_sheet_data_try env c)
          ++ [st_error (load_failure_message env e)])
       ∧ descriptive env e (load_failure_message env e))
  ∧ (∀ m, authorize env = Ok tt →
       open env (SPREADSHEET_NAME env) = Raise (SpreadsheetNotFound m) →
       get_google_sheet_data_wrapped env c
       = (Ok None, c,
          [ gspread_authorize; client_open (SPREADSHEET_NAME env);
            st_error (spreadsheet_not_found_message (SPREADSHEET_NAME env)) ]))
  ∧ (∀ ss m, authorize env = Ok tt →
       open env (SPREADSHEET_NAME env) = Ok ss →
       worksheet ss (WORKSHEET_NAME env) = Raise (WorksheetNotFound m) →
       get_google_sheet_data_wrapped env c
       = (Ok None, c,
          [ gspread_authorize; client_open (SPREADSHEET_NAME env);
            spreadsheet_worksheet (WORKSHEET_NAME env);
            st_error (worksheet_not_found_message (WORKSHEET_NAME env)
                        (SPREADSHEET_NAME env)) ])).
Proof.
  split; [|split; [|split]].
  - destruct (get_google_sheet_data_try_cases env c)
      as [(ss & sh & records & m & _ & _ & _ & _ & _ & H)|(e & n & _ & H)].
    + rewrite (get_google_sheet_data_wrapped_ok _ _ _ _ _ H). by eexists.
    + rewrite (get_google_sheet_data_wrapped_raise _ _ _ _ _ H). by eexists.
  - intros e He.
    destruct (get_google_sheet_data_try_cases env c)
      as [(ss & sh & records & m & _ & _ & _ & _ & _ & H)|(e' & n & _ & H)];
      rewrite H in He; cbn in He; [discriminate|].
    injection He as ->. split; [|apply load_failure_message_descriptive].
    rewrite (get_google_sheet_data_wrapped_raise _ _ _ _ _ H).
    by rewrite H.
  - intros m Ha Ho.
    apply (get_google_sheet_data_wrapped_raise env c c (SpreadsheetNotFound m)
             [gspread_authorize; client_open (SPREADSHEET_NAME env)]).
    unfold get_google_sheet_data_try, call, bind, emit, asks, lift, ret.
    by rewrite Ha; cbn; rewrite Ho.
  - intros ss m Ha Ho Hw.
    apply (get_google_sheet_data_wrapped_raise env c c (WorksheetNotFound m)
             [gspread_authorize; client_open (SPREADSHEET_NAME env);
              spreadsheet_worksheet (WORKSHEET_NAME env)]).
    unfold get_google_sheet_data_try, call, bind, emit, asks, lift, ret.
    by rewrite Ha; cbn; rewrite Ho; cbn; rewrite Hw.
Qed.

Lemma C4_load_errors_reported_witness :
  get_google_sheet_data_wrapped env_no_spreadsheet None
  = (Ok None, None,
     [ gspread_authorize; client_open "Inventario";
       st_error (spreadsheet_not_found_message "Inventario") ])
  ∧ get_google_sheet_data_wrapped env_bad_credentials None
  = (Ok None, None,
     [ gspread_authorize;
       st_error (load_error_message (OtherException "Invalid JWT Signature.")) ]).
Proof.
  split.
  - exact (proj1 (proj2 (proj2 (C4_load_errors_reported env_no_spreadsheet None)))
             "" eq_refl eq_refl).
  - exact (proj1 (proj1 (proj2 (C4_load_errors_reported env_bad_credentials None))
                    (OtherException "Invalid JWT Signature.") eq_refl)).
Defined.

(** *** The loop over the records *)

Lemma get_google_sheet_data_try_reads
    (env : Env) (c : option CacheEntry) (records : list row) :
  sheet_answers env records →
  get_google_sheet_data_try env c
  = (match for_row_in records ∅ with
     | Ok m => Ok (Some m)
     | Raise e => Raise e
     end, c, sheet_calls env).
Proof.
  intros (ss & sh & Ha & Ho & Hw & Hr).
  unfold get_google_sheet_data_try, call, bind, emit, asks, lift, ret, sheet_calls.
  rewrite Ha; cbn. rewrite Ho; cbn. rewrite Hw; cbn. rewrite Hr; cbn.
  by destruct (for_row_in records ∅).
Qed.

Lemma for_row_in_app (l1 l2 : list row) (m : imei_map) :
  for_row_in (l1 ++ l2) m
  = match for_row_in l1 m with
    | Ok m' => for_row_in l2 m'
    | Raise e => Raise e
    end.
Proof.
  revert m. induction l1 as [|r l1 IH]; intros m; [reflexivity|].
  cbn [app for_row_in].
  destruct (PyStr.truthy _ && truthy _); [|apply IH].
  destruct (strip_method _); [apply IH|reflexivity].
Qed.

(** One included row with a [str] reference stores its stripped pair. *)
Lemma for_row_in_cons_str (r : row) (l : list row) (m : imei_map) (u : string) :
  included r = true →
  row_get r PDF_URL_COLUMN_HEADER = PyStr u →
  for_row_in (r :: l) m = for_row_in l (<[key_of r := PyStr.strip u]> m).
Proof.
  unfold included, key_of. intros Hinc Hu. cbn [for_row_in].
  rewrite Hinc, Hu. reflexivity.
Qed.

(** Rows that are skipped or stored under other keys leave a key alone. *)
Lemma for_row_in_other_keys (l : list row) (k : string) (m m' : imei_map) :
  (∀ r, r ∈ l → included r = true → key_of r ≠ k) →
  for_row_in l m = Ok m' →
  m' !! k = m !! k.
Proof.
  revert m. induction l as [|r l IH]; intros m Hl H.
  - by injection H as ->.
  - cbn [for_row_in] in H.
    assert (Hl' : ∀ r', r' ∈ l → included r' = true → key_of r' ≠ k).
    { intros r' Hin. apply Hl. by right. }
    destruct (PyStr.truthy _ && truthy _) eqn:Hinc; [|by apply IH].
    destruct (strip_method _) as [u|e]; [|discriminate].
    rewrite (IH _ Hl' H). apply lookup_insert_ne.
    apply Hl; [by left|exact Hinc].
Qed.

(** The loop raises nothing but the [AttributeError] of [.strip()]. *)
Lemma for_row_in_raises (l : list row) (m : imei_map) (e : exn) :
  for_row_in l m = Raise e → ∃ msg, e = AttributeError msg.
Proof.
  revert m. induction l as [|r l IH]; intros m H; [discriminate|].
  cbn [for_row_in] in H.
  destruct (PyStr.truthy _ && truthy _); [|by eapply IH].
  destruct (row_get r PDF_URL_COLUMN_HEADER) as [|u|n|nz rp]; cbn in H;
    try (injection H as <-; by eexists).
  by eapply IH.
Qed.

(** What does hold of a snapshot: each entry is the stripped pair of a row
    that line 62 let in and whose reference is a [str]. *)
Lemma for_row_in_origin
    (records : list row) (m0 m : imei_map) (k v : string) :
  for_row_in records m0 = Ok m →
  m !! k = Some v →
  m0 !! k = Some v
  ∨ ∃ r u, r ∈ records ∧ included r = true ∧ key_of r = k
           ∧ row_get r PDF_URL_COLUMN_HEADER = PyStr u ∧ v = PyStr.strip u.
Proof.
  revert m0. induction records as [|r l IH]; intros m0 H Hk.
  - injection H as ->. by left.
  - cbn [for_row_in] in H.
    destruct (PyStr.truthy _ && truthy _) eqn:Hinc.
    + destruct (row_get r PDF_URL_COLUMN_HEADER) as [|u|n|nz rp] eqn:Hu;
        try discriminate.
      cbn [strip_method] in H.
      destruct (IH _ H Hk) as [Hin|(r' & u' & Hin & Hrest)].
      * destruct (decide (key_of r = k)) as [Heq|Hne].
        -- unfold key_of in Heq. rewrite Heq, lookup_insert_eq in Hin.
           injection Hin as <-. right. exists r, u.
           split; [by left|]. split; [unfold included; by rewrite Hu|done].
        -- unfold key_of in Hne. rewrite lookup_insert_ne in Hin by done.
           by left.
      * right. exists r', u'. split; [by right|done].
    + destruct (IH _ H Hk) as [Hin|(r' & u' & Hin & Hrest)]; [by left|].
      right. exists r', u'. split; [by right|done].
Qed.

(** C8.  When the read succeeds, a key is mapped to the stripped reference
    of the last row, in row order, that line 62 lets in under that key:
    every later row is either skipped or stored under another key. *)
Theorem C8_last_record_wins
    (env : Env) (c : option CacheEntry) (pre post : list row) (r : row)
    (u : string) (m : imei_map) :
  sheet_answers env (pre ++ r :: post) →
  included r = true →
  row_get r PDF_URL_COLUMN_HEADER = PyStr u →
  (∀ r', r' ∈ post → included r' = true → key_of r' ≠ key_of r) →
  value_of (get_google_sheet_data_wrapped env c) = Ok (Some m) →
  m !! key_of r = Some (PyStr.strip u).
Proof.
  intros Henv Hinc Hu Hpost Hm.
  pose proof (get_google_sheet_data_try_reads env c _ Henv) as Htry.
  rewrite for_row_in_app in Htry.
  destruct (for_row_in pre ∅) as [m1|e1] eqn:Hpre.
  2:{ rewrite (get_google_sheet_data_wrapped_raise _ _ _ _ _ Htry) in Hm.
      discriminate. }
  rewrite (for_row_in_cons_str r post m1 u Hinc Hu) in Htry.
  destruct (for_row_in post _) as [m2|e2] eqn:Hrest.
  2:{ rewrite (get_google_sheet_data_wrapped_raise _ _ _ _ _ Htry) in Hm.
      discriminate. }
  rewrite (get_google_sheet_data_wrapped_ok _ _ _ _ _ Htry) in Hm.
  cbn in Hm. injection Hm as <-.
  rewrite (for_row_in_other_keys post (key_of r) _ m2 Hpost Hrest).
  apply lookup_insert_eq.
Qed.

Lemma sample_env_answers (records : list row) (answer : string → result Response) :
  sheet_answers (sample_env records answer) records.
Proof. by eexists _, _. Qed.

Lemma C8_last_record_wins_witness :
  value_of (get_google_sheet_data_wrapped (sample_env duplicate_records ok_web) None)
  = Ok (Some {[ sample_imei := "https://example.com/new.pdf";
                "000000000000000" := sample_url ]})
  ∧ ({[ sample_imei := "https://example.com/new.pdf";
        "000000000000000" := sample_url ]} : imei_map) !! sample_imei
    = Some "https://example.com/new.pdf".
Proof.
  split; [vm_compute; reflexivity|].
  apply (C8_last_record_wins (sample_env duplicate_records ok_web) None
           [record (PyStr sample_imei) (PyStr "https://example.com/old.pdf")]
           [record (PyStr "000000000000000") (PyStr sample_url)]
           (record (PyInt 123456789012345) (PyStr " https://example.com/new.pdf "))
           " https://example.com/new.pdf ").
  - apply sample_env_answers.
  - reflexivity.
  - reflexivity.
  - intros r' Hin%list_elem_of_singleton _. subst r'. vm_compute. discriminate.
  - vm_compute. reflexivity.
Defined.

(** C10 (as amended).  A row that line 62 lets in — its identifier reads
    as a non-empty string and its reference is truthy — but whose reference
    is not a [str] makes [.strip()] raise; the generic clause catches it,
    and the loader returns [None] with one error, whatever the other rows
    hold. *)
Theorem C10_non_string_reference_discards_all
    (env : Env) (c : option CacheEntry) (pre post : list row) (r : row) :
  sheet_answers env (pre ++ r :: post) →
  included r = true →
  is_str (row_get r PDF_URL_COLUMN_HEADER) = false →
  ∃ msg,
    get_google_sheet_data_wrapped env c
    = (Ok None, c,
       sheet_calls env ++ [st_error (load_error_message (AttributeError msg))]).
Proof.
  intros Henv Hinc Hstr.
  pose proof (get_google_sheet_data_try_reads env c _ Henv) as Htry.
  assert (∃ msg, for_row_in (pre ++ r :: post) ∅ = Raise (AttributeError msg))
    as [msg Hmsg].
  { rewrite for_row_in_app.
    destruct (for_row_in pre ∅) as [m1|e1] eqn:Hpre.
    - unfold included in Hinc. cbn [for_row_in]. rewrite Hinc.
      destruct (row_get r PDF_URL_COLUMN_HEADER); try discriminate;
        by eexists.
    - destruct (for_row_in_raises _ _ _ Hpre) as [msg ->]. by eexists. }
  rewrite Hmsg in Htry. exists msg.
  by rewrite (get_google_sheet_data_wrapped_raise _ _ _ _ _ Htry).
Qed.

Lemma C10_non_string_reference_discards_all_witness :
  ∃ msg,
    get_google_sheet_data_wrapped (sample_env numeric_url_records ok_web) None
    = (Ok None, None,
       sheet_calls (sample_env numeric_url_records ok_web)
       ++ [st_error (load_error_message (AttributeError msg))]).
Proof.
  apply (C10_non_string_reference_discards_all
           (sample_env numeric_url_records ok_web) None []
           [record (PyStr sample_imei) (PyStr sample_url)]
           (record (PyStr "490154203237518") (PyInt 42))).
  - apply sample_env_answers.
  - reflexivity.
  - reflexivity.
Defined.

(** C10 as stated fails: the numeric reference of a row whose identifier
    cell is blank never reaches [.strip()]; the row is skipped and the
    other rows are loaded. *)
Lemma C10_counterexample :
  truthy (row_get (record (PyStr "") (PyInt 42)) PDF_URL_COLUMN_HEADER) = true
  ∧ is_str (row_get (record (PyStr "") (PyInt 42)) PDF_URL_COLUMN_HEADER) = false
  ∧ get_google_sheet_data_wrapped
      (sample_env blank_imei_numeric_url_records ok_web) None
    = (Ok (Some {[ sample_imei := sample_url ]}), None,
       sheet_calls (sample_env blank_imei_numeric_url_records ok_web)).
Proof. repeat split; vm_compute; reflexivity. Qed.

(** C2 fails on the code.  A record without the identifier column is
    stored under the key "None" ([str(None)]); a blank identifier or
    reference that is not empty before [.strip()] is stored as the empty
    string. *)
Theorem C2_missing_or_blank_values_stored :
  value_of (get_google_sheet_data_wrapped
              (sample_env no_imei_column_records ok_web) None)
  = Ok (Some {[ "None" := sample_url ]})
  ∧ value_of (get_google_sheet_data_wrapped
                (sample_env [record (PyStr " ") (PyStr sample_url)] ok_web) None)
    = Ok (Some {[ "" := sample_url ]})
  ∧ value_of (get_google_sheet_data_wrapped
                (sample_env [record (PyStr sample_imei) (PyStr " ")] ok_web) None)
    = Ok (Some {[ sample_imei := "" ]}).
Proof. repeat split; vm_compute; reflexivity. Qed.

(** ** The fetcher *)

Lemma raise_for_status_error (r : Response) :
  error_status (status_code r) →
  ∃ m, raise_for_status r = Raise (RequestException m)
       ∧ PyStr.contains (pretty (status_code r)) m.
Proof.
  unfold error_status, raise_for_status. intros [Hlo Hhi].
  destruct (Z.ltb_spec (status_code r) 500) as [H5|H5].
  - rewrite (proj2 (Z.leb_le _ _) Hlo). cbn [andb].
    eexists; split; [reflexivity|auto with contains].
  - rewrite andb_false_r.
    rewrite (proj2 (Z.leb_le 500 _) H5), (proj2 (Z.ltb_lt _ 600) Hhi).
    cbn [andb]. eexists; split; [reflexivity|auto with contains].
Qed.

Lemma raise_for_status_pass (r : Response) :
  ¬ error_status (status_code r) → raise_for_status r = Ok tt.
Proof.
  unfold error_status, raise_for_status. intros H.
  destruct (Z.leb_spec 400 (status_code r)), (Z.ltb_spec (status_code r) 500),
    (Z.leb_spec 500 (status_code r)), (Z.ltb_spec (status_code r) 600);
    cbn [andb]; try reflexivity; lia.
Qed.

(** C5 (as amended).  One GET is made and never repeated.  A 4xx or 5xx
    status, an exception of [requests] raised by the GET, or one raised
    while the body is read, each yield [None] after one error that names
    the URL and the detail; any other response yields its whole body. *)
Theorem C5_fetch_outcomes (pdf_url : string) (env : Env) (c : option CacheEntry) :
  (∀ r, get env pdf_url = Ok r → error_status (status_code r) →
     ∃ m, download_pdf_as_bytes pdf_url env c
          = (Ok None, c,
             [ requests_get pdf_url;
               st_error (download_error_message pdf_url (RequestException m)) ])
          ∧ PyStr.contains (pretty (status_code r)) m)
  ∧ (∀ m, get env pdf_url = Raise (RequestException m) →
       download_pdf_as_bytes pdf_url env c
       = (Ok None, c,
          [ requests_get pdf_url;
            st_error (download_error_message pdf_url (RequestException m)) ]))
  ∧ (∀ r m, get env pdf_url = Ok r → ¬ error_status (status_code r) →
       content r = Raise (RequestException m) →
       download_pdf_as_bytes pdf_url env c
       = (Ok None, c,
          [ requests_get pdf_url;
            st_error (download_error_message pdf_url (RequestException m)) ]))
  ∧ (∀ r body, get env pdf_url = Ok r → ¬ error_status (status_code r) →
       content r = Ok body →
       download_pdf_as_bytes pdf_url env c
       = (Ok (Some body), c, [requests_get pdf_url]))
  ∧ (∀ e, PyStr.contains pdf_url (download_error_message pdf_url e)
          ∧ PyStr.contains (exn_str e) (download_error_message pdf_url e)).
Proof.
  unfold download_pdf_as_bytes, try_except, call, bind, emit, asks, lift, ret.
  split; [|split; [|split; [|split; [|intros e; split]]]].
  - intros r Hr Hs. destruct (raise_for_status_error r Hs) as (m & Hm & Hc).
    exists m. split; [|exact Hc]. rewrite Hr; cbn. by rewrite Hm.
  - intros m Hr. by rewrite Hr.
  - intros r m Hr Hs Hc. rewrite Hr; cbn.
    rewrite (raise_for_status_pass r Hs); cbn. by rewrite Hc.
  - intros r body Hr Hs Hc. rewrite Hr; cbn.
    rewrite (raise_for_status_pass r Hs); cbn. by rewrite Hc.
  - unfold download_error_message. auto with contains.
  - unfold download_error_message. auto 10 with contains.
Qed.

Lemma C5_fetch_outcomes_witness :
  (∃ m, download_pdf_as_bytes sample_url (sample_env [] (web 404 "Not Found" [])) None
        = (Ok None, None,
           [ requests_get sample_url;
             st_error (download_error_message sample_url (RequestException m)) ])
        ∧ PyStr.contains "404" m)
  ∧ download_pdf_as_bytes sample_url (sample_env [] ok_web) None
    = (Ok (Some sample_pdf), None, [requests_get sample_url]).
Proof.
  split.
  - apply (proj1 (C5_fetch_outcomes sample_url
                    (sample_env [] (web 404 "Not Found" [])) None)
             {| status_code := 404; reason := "Not Found"; url := sample_url;
                content := Ok [] |}).
    + reflexivity.
    + unfold error_status. cbn. lia.
  - apply (proj1 (proj2 (proj2 (proj2 (C5_fetch_outcomes sample_url
                    (sample_env [] ok_web) None))))
             {| status_code := 200; reason := "OK"; url := sample_url;
                content := Ok sample_pdf |}).
    + reflexivity.
    + unfold error_status. cbn. lia.
    + reflexivity.
Defined.

(** C5 as stated fails: a status of 400 or more that is neither 4xx nor
    5xx is not an error for [raise_for_status], and the body is returned. *)
Lemma C5_counterexample :
  (400 ≤ 999)%Z
  ∧ download_pdf_as_bytes sample_url (sample_env [] (web 999 "Request denied" sample_pdf)) None
    = (Ok (Some sample_pdf), None, [requests_get sample_url]).
Proof. split; [lia|vm_compute; reflexivity]. Qed.

(** ** The presenter *)

(** C6 (as amended).  Content that is absent or has no bytes gets the
    warning and no download action.  Content with at least one byte gets,
    first, the download action for exactly those bytes under the file name
    [documento_imei.pdf] and the type [application/pdf]; the frame is drawn
    after it, and if drawing it raises, a warning follows, the presenter
    returns normally and the download action stays. *)
Theorem C6_presenter (pdf_bytes : option bytes) (env : Env) (c : option CacheEntry) :
  (truthy_bytes pdf_bytes = false →
     display_pdf_in_streamlit pdf_bytes env c
     = (Ok tt, c, [st_warning no_pdf_message]))
  ∧ (∀ data, pdf_bytes = Some data → data ≠ [] →
       ∃ rest,
         display_pdf_in_streamlit pdf_bytes env c
         = (Ok tt, c,
            st_download_button "Descargar PDF" data "documento_imei.pdf"
              "application/pdf" "Haz clic para descargar el PDF asociado al IMEI."
            :: st_markdown (pdf_display (b64encode data)) true :: rest)
         ∧ (markdown env (pdf_display (b64encode data)) = Ok tt → rest = [])
         ∧ (∀ e, markdown env (pdf_display (b64encode data)) = Raise e →
              rest = [st_warning (embed_warning_message e)])).
Proof.
  split.
  - intros H. unfold display_pdf_in_streamlit. by rewrite H.
  - intros data -> Hne.
    assert (Ht : truthy_bytes (Some data) = true) by by destruct data.
    unfold display_pdf_in_streamlit. rewrite Ht.
    change (default [] (Some data)) with data.
    unfold try_except, call, bind, emit, asks, lift, ret.
    destruct (markdown env (pdf_display (b64encode data))) as [[]|e] eqn:Hm;
      cbn; eexists; (split; [reflexivity|]); split; try done.
    intros e' [= <-]. reflexivity.
Qed.

Lemma C6_presenter_witness :
  display_pdf_in_streamlit None (sample_env [] ok_web) None
  = (Ok tt, None, [st_warning no_pdf_message])
  ∧ ∃ rest,
      display_pdf_in_streamlit (Some sample_pdf) env_markdown_fails None
      = (Ok tt, None,
         st_download_button "Descargar PDF" sample_pdf "documento_imei.pdf"
           "application/pdf" "Haz clic para descargar el PDF asociado al IMEI."
         :: st_markdown (pdf_display (b64encode sample_pdf)) true :: rest)
      ∧ (markdown env_markdown_fails (pdf_display (b64encode sample_pdf)) = Ok tt →
         rest = [])
      ∧ (∀ e, markdown env_markdown_fails (pdf_display (b64encode sample_pdf))
              = Raise e →
           rest = [st_warning (embed_warning_message e)]).
Proof.
  split.
  - apply (proj1 (C6_presenter None (sample_env [] ok_web) None)). reflexivity.
  - apply (proj2 (C6_presenter (Some sample_pdf) env_markdown_fails None)
             sample_pdf).
    + reflexivity.
    + discriminate.
Defined.

(** C6 as stated fails: content that is present but has no bytes — the
    body of a response without one — is offered no download action. *)
Lemma C6_counterexample :
  download_pdf_as_bytes sample_url (sample_env [] (web 200 "OK" [])) None
  = (Ok (Some []), None, [requests_get sample_url])
  ∧ display_pdf_in_streamlit (Some []) (sample_env [] (web 200 "OK" [])) None
    = (Ok tt, None, [st_warning no_pdf_message])
  ∧ download_buttons_in
      (trace_of (display_pdf_in_streamlit (Some [])
                   (sample_env [] (web 200 "OK" [])) None)) = [].
Proof. repeat split. Qed.

(** ** The handler and the cache *)

Ltac py_unfold :=
  unfold show_result, download_pdf_as_bytes, display_pdf_in_streamlit,
    try_except, call, bind, emit, asks, lift, ret.

(** What follows the lookup neither reads nor writes the cache slot. *)
Lemma show_result_frame
    (K : string) (v : option imei_map) (env : Env) (c c' : option CacheEntry) :
  show_result K v env c
  = (value_of (show_result K v env c'), c, trace_of (show_result K v env c')).
Proof.
  py_unfold. unfold value_of, trace_of.
  repeat (case_match; simplify_eq/=; try done).
Qed.

(** It makes no call to the sheet. *)
Lemma show_result_no_sheet_calls
    (K : string) (v : option imei_map) (env : Env) (c : option CacheEntry) :
  sheet_calls_in (trace_of (show_result K v env c)) = []
  ∧ not_sheet_calls_in (trace_of (show_result K v env c))
    = trace_of (show_result K v env c).
Proof.
  py_unfold. unfold trace_of, sheet_calls_in, not_sheet_calls_in.
  repeat (case_match; simplify_eq/=; try done).
Qed.

(** It depends on the world only through the web and the front end. *)
Lemma show_result_env
    (K : string) (v : option imei_map) (env1 env2 : Env) (c : option CacheEntry) :
  get env1 = get env2 → markdown env1 = markdown env2 →
  show_result K v env1 c = show_result K v env2 c.
Proof.
  intros Hg Hm. py_unfold.
  repeat (case_match; simplify_eq/=; try done); congruence.
Qed.

Lemma valid_imei_search (K : string) (env : Env) (c : option CacheEntry) :
  valid_imei K →
  search K env c
  = (imei_data_map <- get_google_sheet_data ;; show_result K imei_data_map) env c.
Proof.
  intros [Hlen Hdig]. unfold search.
  destruct K as [|a K']; [discriminate|].
  cbn [PyStr.truthy negb].
  by rewrite (proj2 (len_15 _) Hlen), Hdig.
Qed.

(** The search is the cached loader followed by [show_result]. *)
Lemma valid_imei_search_run
    (K : string) (env : Env) (c c' : option CacheEntry)
    (v : option imei_map) (t : list effect) :
  valid_imei K →
  get_google_sheet_data env c = (Ok v, c', t) →
  search K env c
  = (value_of (show_result K v env c'), c', t ++ trace_of (show_result K v env c')).
Proof.
  intros HK Hload. rewrite (valid_imei_search K env c HK).
  unfold bind. rewrite Hload.
  rewrite (show_result_frame K v env c' c'). reflexivity.
Qed.

(** *** The decorator *)

Lemma st_cache_data_hit
    (ttl : Q) (f : Py (option imei_map)) (env : Env) (entry : CacheEntry) :
  (now env < expires entry)%Q →
  st_cache_data ttl f env (Some entry)
  = (Ok (cached_value entry), Some entry, cached_elements entry).
Proof.
  intros Hlt. unfold st_cache_data.
  destruct (Qle_bool (expires entry) (now env)) eqn:Hle; [|reflexivity].
  apply Qle_bool_iff in Hle. exfalso. by apply (Qlt_not_le _ _ Hlt).
Qed.

Lemma st_cache_data_miss
    (ttl : Q) (f : Py (option imei_map)) (env : Env) (c c' : option CacheEntry)
    (v : option imei_map) (t : list effect) :
  cache_misses env c →
  f env c = (Ok v, c', t) →
  st_cache_data ttl f env c
  = (Ok v,
     Some {| cached_value := v; cached_elements := st_elements t;
             expires := (now env + ttl)%Q |},
     t).
Proof.
  intros Hmiss Hf. unfold st_cache_data. rewrite Hf.
  destruct c as [entry|]; [|reflexivity].
  cbn in Hmiss. apply Qle_bool_iff in Hmiss. by rewrite Hmiss.
Qed.

Lemma cache_hit_or_miss (env : Env) (c : option CacheEntry) :
  (∃ entry, c = Some entry ∧ (now env < expires entry)%Q) ∨ cache_misses env c.
Proof.
  destruct c as [entry|]; [|by right].
  destruct (Qlt_le_dec (now env) (expires entry)); [left; eauto|by right].
Qed.

(** The trace of one run of the undecorated loader: a non-empty prefix of
    the four sheet calls, then at most one error. *)
Lemma get_google_sheet_data_wrapped_shape (env : Env) (c : option CacheEntry) :
  ∃ v n errs,
    get_google_sheet_data_wrapped env c
    = (Ok v, c, take n (sheet_calls env) ++ errs)
    ∧ (1 ≤ n ≤ 4)%nat
    ∧ (errs = [] ∨ ∃ msg, errs = [st_error msg] ∧ v = None).
Proof.
  destruct (get_google_sheet_data_try_cases env c)
    as [(ss & sh & records & m & _ & _ & _ & _ & _ & H)|(e & n & Hn & H)].
  - exists (Some m), 4%nat, []. split; [|split; [lia|by left]].
    rewrite (get_google_sheet_data_wrapped_ok _ _ _ _ _ H).
    by rewrite app_nil_r.
  - exists None, n, [st_error (load_failure_message env e)].
    split; [|split; [exact Hn|right; eauto]].
    apply (get_google_sheet_data_wrapped_raise _ _ _ _ _ H).
Qed.

Lemma take_sheet_calls (env : Env) (n : nat) (errs : list effect) :
  (1 ≤ n ≤ 4)%nat →
  (errs = [] ∨ ∃ msg, errs = [st_error msg]) →
  sheet_calls_in (take n (sheet_calls env) ++ errs) = take n (sheet_calls env)
  ∧ st_elements (take n (sheet_calls env) ++ errs) = errs
  ∧ not_sheet_calls_in (take n (sheet_calls env) ++ errs) = errs
  ∧ loads_in (take n (sheet_calls env)) = 1%nat.
Proof.
  intros Hn Herrs.
  assert (n = 1 ∨ n = 2 ∨ n = 3 ∨ n = 4)%nat as Hcases by lia.
  destruct Herrs as [-> | [msg ->]];
    destruct Hcases as [-> | [-> | [-> | ->]]]; repeat split.
Qed.

Lemma st_elements_only (l : list effect) :
  Forall (λ e, is_st_element e = true) l →
  sheet_calls_in l = [] ∧ not_sheet_calls_in l = l ∧ st_elements l = l.
Proof.
  unfold sheet_calls_in, not_sheet_calls_in, st_elements.
  induction 1 as [|e l He _ (IH1 & IH2 & IH3)]; [done|].
  destruct e; try discriminate; rewrite !filter_cons;
    repeat case_decide; try done; by rewrite IH1, IH2, IH3.
Qed.

Lemma st_elements_Forall (t : list effect) :
  Forall (λ e, is_st_element e = true) (st_elements t).
Proof. unfold st_elements. apply Forall_forall. by intros e [H _]%list_elem_of_filter. Qed.

Lemma loads_in_sheet_calls (t : list effect) :
  loads_in t = loads_in (sheet_calls_in t).
Proof.
  unfold loads_in, sheet_calls_in.
  induction t as [|e t IH]; [done|].
  destruct e; rewrite !filter_cons; repeat case_decide; try done;
    rewrite ?filter_cons; repeat case_decide; try done; cbn; by rewrite IH.
Qed.

Lemma sheet_calls_in_app (t1 t2 : list effect) :
  sheet_calls_in (t1 ++ t2) = sheet_calls_in t1 ++ sheet_calls_in t2.
Proof. apply filter_app. Qed.

Lemma not_sheet_calls_in_app (t1 t2 : list effect) :
  not_sheet_calls_in (t1 ++ t2) = not_sheet_calls_in t1 ++ not_sheet_calls_in t2.
Proof. apply filter_app. Qed.

(** A successful read makes all four calls and draws nothing. *)
Lemma get_google_sheet_data_wrapped_success
    (env : Env) (c : option CacheEntry) (m : imei_map) :
  value_of (get_google_sheet_data_wrapped env c) = Ok (Some m) →
  get_google_sheet_data_wrapped env c = (Ok (Some m), c, sheet_calls env)
  ∧ ∃ records, sheet_answers env records ∧ for_row_in records ∅ = Ok m.
Proof.
  intros Hv.
  destruct (get_google_sheet_data_try_cases env c)
    as [(ss & sh & records & m' & Ha & Ho & Hw & Hr & Hf & H)|(e & n & _ & H)].
  - rewrite (get_google_sheet_data_wrapped_ok _ _ _ _ _ H) in Hv |- *.
    cbn in Hv. injection Hv as ->. split; [done|].
    exists records. split; [by exists ss, sh|done].
  - rewrite (get_google_sheet_data_wrapped_raise _ _ _ _ _ H) in Hv.
    discriminate.
Qed.

(** The decorated loader on a miss: one run of the function, stored. *)
Lemma get_google_sheet_data_on_miss (env : Env) (c : option CacheEntry) :
  cache_misses env c →
  ∃ v t,
    get_google_sheet_data_wrapped env c = (Ok v, c, t)
    ∧ get_google_sheet_data env c
      = (Ok v,
         Some {| cached_value := v; cached_elements := st_elements t;
                 expires := (now env + TTL)%Q |},
         t)
    ∧ st_elements t = not_sheet_calls_in t
    ∧ loads_in t = 1%nat.
Proof.
  intros Hmiss.
  destruct (get_google_sheet_data_wrapped_shape env c)
    as (v & n & errs & Hrun & Hn & Herrs).
  exists v, (take n (sheet_calls env) ++ errs).
  assert (Herrs' : errs = [] ∨ ∃ msg, errs = [st_error msg]).
  { destruct Herrs as [->|(msg & -> & _)]; eauto. }
  destruct (take_sheet_calls env n errs Hn Herrs') as (H1 & H2 & H3 & H4).
  split; [exact Hrun|]. split; [|split].
  - unfold get_google_sheet_data. by eapply st_cache_data_miss.
  - congruence.
  - rewrite loads_in_sheet_calls, H1. exact H4.
Qed.

(** The decorated loader always answers and leaves an entry that holds its
    answer and the elements it drew. *)
Lemma get_google_sheet_data_run (env : Env) (c : option CacheEntry) :
  cache_wf c →
  ∃ v entry t,
    get_google_sheet_data env c = (Ok v, Some entry, t)
    ∧ cached_value entry = v
    ∧ cached_elements entry = not_sheet_calls_in t
    ∧ Forall (λ e, is_st_element e = true) (cached_elements entry)
    ∧ (cache_misses env c → expires entry = (now env + TTL)%Q).
Proof.
  intros Hwf.
  destruct (cache_hit_or_miss env c) as [(entry & -> & Hlt)|Hmiss].
  - exists (cached_value entry), entry, (cached_elements entry).
    pose proof (Hwf entry eq_refl) as Hall.
    destruct (st_elements_only _ Hall) as (_ & Hns & _).
    repeat split; try done.
    + unfold get_google_sheet_data. by apply st_cache_data_hit.
    + cbn. intros Hle. exfalso. by apply (Qlt_not_le _ _ Hlt).
  - destruct (get_google_sheet_data_on_miss env c Hmiss)
      as (v & t & _ & Hrun & Hst & _).
    eexists v, _, t. split; [exact Hrun|]. cbn.
    repeat split; try done. apply st_elements_Forall.
Qed.

(** A key that a mapping with entries does not hold is reported, and
    nothing is fetched. *)
Lemma search_key_not_in_nonempty_mapping
    (K : string) (env : Env) (c c' : option CacheEntry)
    (m : imei_map) (t : list effect) :
  valid_imei K →
  get_google_sheet_data env c = (Ok (Some m), c', t) →
  m ≠ ∅ → m !! K = None →
  search K env c = (Ok tt, c', t ++ [st_error (not_found_message K)]).
Proof.
  intros HK Hload Hne Hnone.
  rewrite (valid_imei_search_run K env c c' _ t HK Hload).
  unfold show_result, truthy_map.
  change (default ∅ (Some m) !! K) with (m !! K).
  rewrite (bool_decide_eq_true_2 _ Hne), Hnone. reflexivity.
Qed.

(** C9.  When the loader runs and succeeds with a mapping without entries,
    a search for a valid key draws nothing and fetches nothing: its trace
    is the four calls of the read.  The handler does with the empty mapping
    what it does with [None], and a later search served from the cache
    leaves no trace at all. *)
Theorem C9_empty_mapping_silent (K : string) (env : Env) (c : option CacheEntry) :
  valid_imei K →
  cache_misses env c →
  value_of (get_google_sheet_data_wrapped env c) = Ok (Some ∅) →
  search K env c
  = (Ok tt,
     Some {| cached_value := Some ∅; cached_elements := [];
             expires := (now env + TTL)%Q |},
     sheet_calls env)
  ∧ st_elements (trace_of (search K env c)) = []
  ∧ http_calls_in (trace_of (search K env c)) = []
  ∧ show_result K (Some ∅) = show_result K None
  ∧ (∀ env', (now env' < now env + TTL)%Q →
       search K env' (cache_of (search K env c))
       = (Ok tt, cache_of (search K env c), [])).
Proof.
  intros HK Hmiss Hv.
  destruct (get_google_sheet_data_wrapped_success env c ∅ Hv) as [Hrun _].
  assert (Hload : get_google_sheet_data env c
                  = (Ok (Some ∅),
                     Some {| cached_value := Some ∅; cached_elements := [];
                             expires := (now env + TTL)%Q |},
                     sheet_calls env)).
  { unfold get_google_sheet_data.
    by rewrite (st_cache_data_miss TTL _ env c c _ _ Hmiss Hrun). }
  assert (Hsearch : search K env c
                    = (Ok tt,
                       Some {| cached_value := Some ∅; cached_elements := [];
                               expires := (now env + TTL)%Q |},
                       sheet_calls env)).
  { rewrite (valid_imei_search_run K env c _ _ _ HK Hload).
    change (show_result K (Some ∅)) with (@ret unit tt).
    unfold ret, value_of, trace_of. cbn [fst snd]. by rewrite app_nil_r. }
  rewrite Hsearch. split; [done|]. split; [done|]. split; [done|].
  split; [done|].
  intros env' Hlt. cbn [cache_of fst snd].
  assert (Hhit : get_google_sheet_data env'
                   (Some {| cached_value := Some ∅; cached_elements := [];
                            expires := (now env + TTL)%Q |})
                 = (Ok (Some ∅),
                    Some {| cached_value := Some ∅; cached_elements := [];
                            expires := (now env + TTL)%Q |}, [])).
  { unfold get_google_sheet_data. by rewrite st_cache_data_hit. }
  by rewrite (valid_imei_search_run K env' _ _ _ _ HK Hhit).
Qed.

Lemma sample_imei_valid : valid_imei sample_imei.
Proof. split; reflexivity. Qed.

Lemma C9_empty_mapping_silent_witness :
  search sample_imei (sample_env [record (PyStr "") (PyStr sample_url)] ok_web) None
  = (Ok tt,
     Some {| cached_value := Some ∅; cached_elements := [];
             expires := (0 + TTL)%Q |},
     sheet_calls (sample_env [] ok_web)).
Proof.
  apply (proj1 (C9_empty_mapping_silent sample_imei
                  (sample_env [record (PyStr "") (PyStr sample_url)] ok_web) None
                  sample_imei_valid I eq_refl)).
Defined.

(** C3 fails on the code.  With a sheet that has no rows the loader
    succeeds with an empty mapping; the key is not in it, and the search
    draws nothing — no "not found" message. *)
Theorem C3_empty_mapping_no_message :
  valid_imei "000000000000000"
  ∧ value_of (get_google_sheet_data (sample_env [] ok_web) None) = Ok (Some ∅)
  ∧ (∅ : imei_map) !! "000000000000000" = None
  ∧ trace_of (search "000000000000000" (sample_env [] ok_web) None)
    = sheet_calls (sample_env [] ok_web)
  ∧ st_elements (trace_of (search "000000000000000" (sample_env [] ok_web) None))
    = [].
Proof. repeat split. Qed.

(** C7.  After a search for a valid key the cache slot holds an entry; an
    entry written by that search expires [TTL] = 600 seconds after it.
    A second search made before the entry expires gets the same value from
    the loader — hence the same lookup result for every key — makes no
    call to the sheet, leaves the entry as it is and, the web and the front
    end answering alike, shows exactly what the first search showed.
    A second search made after the entry has expired runs the loader
    exactly once, uses what that run returns and stores it for another
    600 seconds. *)
Theorem C7_cache_ttl (K : string) (env1 env2 : Env) (c0 : option CacheEntry) :
  valid_imei K →
  cache_wf c0 →
  ∃ entry,
    cache_of (search K env1 c0) = Some entry
    ∧ TTL = 600%Q
    ∧ (cache_misses env1 c0 → expires entry = (now env1 + TTL)%Q)
    ∧ ((now env2 < expires entry)%Q →
         value_of (get_google_sheet_data env2 (Some entry))
         = value_of (get_google_sheet_data env1 c0)
         ∧ sheet_calls_in (trace_of (search K env2 (Some entry))) = []
         ∧ cache_of (search K env2 (Some entry)) = Some entry
         ∧ (get env2 = get env1 → markdown env2 = markdown env1 →
              trace_of (search K env2 (Some entry))
              = not_sheet_calls_in (trace_of (search K env1 c0))))
    ∧ ((expires entry < now env2)%Q →
         loads_in (trace_of (search K env2 (Some entry))) = 1%nat
         ∧ sheet_calls_in (trace_of (search K env2 (Some entry)))
           = sheet_calls_in (trace_of (get_google_sheet_data_wrapped env2 (Some entry)))
         ∧ value_of (get_google_sheet_data env2 (Some entry))
           = value_of (get_google_sheet_data_wrapped env2 (Some entry))
         ∧ ∃ entry',
             cache_of (search K env2 (Some entry)) = Some entry'
             ∧ Ok (cached_value entry')
               = value_of (get_google_sheet_data_wrapped env2 (Some entry))
             ∧ expires entry' = (now env2 + TTL)%Q).
Proof.
  intros HK Hwf.
  destruct (get_google_sheet_data_run env1 c0 Hwf)
    as (v1 & entry & t1 & Hrun1 & Hval & Hels & Hall & Hexp).
  pose proof (valid_imei_search_run K env1 c0 _ _ _ HK Hrun1) as Hs1.
  exists entry. split; [by rewrite Hs1|]. split; [reflexivity|].
  split; [exact Hexp|]. split.
  - intros Hlt.
    assert (Hrun2 : get_google_sheet_data env2 (Some entry)
                    = (Ok v1, Some entry, cached_elements entry)).
    { unfold get_google_sheet_data. rewrite st_cache_data_hit by done.
      by rewrite Hval. }
    pose proof (valid_imei_search_run K env2 _ _ _ _ HK Hrun2) as Hs2.
    destruct (st_elements_only _ Hall) as (Hnone & _ & _).
    split; [by rewrite Hrun1, Hrun2|]. rewrite Hs2, Hs1. cbn [trace_of cache_of fst snd].
    split; [|split; [done|]].
    + rewrite sheet_calls_in_app, Hnone.
      apply (show_result_no_sheet_calls K v1 env2 (Some entry)).
    + intros Hg Hm.
      rewrite not_sheet_calls_in_app, <- Hels.
      rewrite (proj2 (show_result_no_sheet_calls K v1 env1 (Some entry))).
      by rewrite (show_result_env K v1 env2 env1 (Some entry) Hg Hm).
  - intros Hle%Qlt_le_weak.
    destruct (get_google_sheet_data_on_miss env2 (Some entry) Hle)
      as (v2 & t2 & Hw2 & Hrun2 & _ & Hloads).
    pose proof (valid_imei_search_run K env2 _ _ _ _ HK Hrun2) as Hs2.
    rewrite Hs2, Hrun2, Hw2. cbn [trace_of cache_of value_of fst snd].
    destruct (show_result_no_sheet_calls K v2 env2
                (Some {| cached_value := v2; cached_elements := st_elements t2;
                         expires := (now env2 + TTL)%Q |})) as [Hnone _].
    split; [|split; [|split; [done|]]].
    + rewrite loads_in_sheet_calls, sheet_calls_in_app, Hnone, app_nil_r.
      by rewrite <- loads_in_sheet_calls.
    + by rewrite sheet_calls_in_app, Hnone, app_nil_r.
    + by eexists.
Qed.

Lemma cache_wf_None : cache_wf None.
Proof. intros entry H. discriminate. Qed.

Lemma C7_cache_ttl_witness :
  ∃ entry,
    cache_of (search sample_imei env_t0 None) = Some entry
    ∧ expires entry = (0 + TTL)%Q
    ∧ value_of (get_google_sheet_data env_t300 (Some entry))
      = Ok (Some {[ sample_imei := sample_url ]})
    ∧ sheet_calls_in (trace_of (search sample_imei env_t300 (Some entry))) = []
    ∧ loads_in (trace_of (search sample_imei env_t900 (Some entry))) = 1%nat
    ∧ value_of (get_google_sheet_data env_t900 (Some entry))
      = Ok (Some {[ sample_imei := "https://example.com/v2.pdf" ]}).
Proof.
  destruct (C7_cache_ttl sample_imei env_t0 env_t300 None
              sample_imei_valid cache_wf_None)
    as (entry & Hc & _ & Hexp & Hin & _).
  destruct (C7_cache_ttl sample_imei env_t0 env_t900 None
              sample_imei_valid cache_wf_None)
    as (entry' & Hc' & _ & _ & _ & Hout).
  rewrite Hc in Hc'. injection Hc' as <-.
  specialize (Hexp I).
  assert (Hlt : (now env_t300 < expires entry)%Q) by (rewrite Hexp; reflexivity).
  assert (Hle : (expires entry < now env_t900)%Q)
    by (rewrite Hexp; reflexivity).
  destruct (Hin Hlt) as (Hv & Hs & _ & _).
  destruct (Hout Hle) as (Hl & _ & Hv' & _).
  exists entry. rewrite Hv, Hv'. repeat split; done.
Defined.

(** * Further properties of the handler, the loader and the cache *)

(** ** The paths of [show_result] *)

Lemma download_pdf_as_bytes_ok
    (pdf_url : string) (env : Env) (c : option CacheEntry)
    (r : Response) (body : bytes) :
  get env pdf_url = Ok r → ¬ error_status (status_code r) →
  content r = Ok body →
  download_pdf_as_bytes pdf_url env c = (Ok (Some body), c, [requests_get pdf_url]).
Proof.
  intros Hr Hs Hc.
  unfold download_pdf_as_bytes, try_except, call, bind, emit, asks, lift, ret.
  rewrite Hr; cbn. rewrite (raise_for_status_pass r Hs); cbn. by rewrite Hc.
Qed.

Lemma download_pdf_as_bytes_fails
    (pdf_url : string) (env : Env) (c : option CacheEntry) :
  fetch_fails env pdf_url →
  ∃ msg,
    download_pdf_as_bytes pdf_url env c
    = (Ok None, c,
       [ requests_get pdf_url;
         st_error (download_error_message pdf_url (RequestException msg)) ]).
Proof.
  unfold download_pdf_as_bytes, try_except, call, bind, emit, asks, lift, ret.
  intros [[msg Hr]|(r & Hr & Hbad)]; rewrite Hr; cbn; [by exists msg|].
  destruct (raise_for_status r) as [[]|e] eqn:Hs; cbn.
  - destruct Hbad as [Hbad|[msg Hc]].
    + destruct (raise_for_status_error r Hbad) as (m & Hm & _). congruence.
    + rewrite Hc. by exists msg.
  - unfold raise_for_status in Hs.
    repeat case_match; simplify_eq; by eexists.
Qed.

Lemma display_pdf_in_streamlit_bytes
    (body : bytes) (env : Env) (c : option CacheEntry) :
  body ≠ [] →
  ∃ rest,
    display_pdf_in_streamlit (Some body) env c
    = (Ok tt, c,
       download_button body
       :: st_markdown (pdf_display (b64encode body)) true :: rest)
    ∧ (rest = [] ∨ ∃ e, rest = [st_warning (embed_warning_message e)]).
Proof.
  intros Hne.
  assert (Ht : truthy_bytes (Some body) = true) by by destruct body.
  unfold display_pdf_in_streamlit. rewrite Ht.
  change (default [] (Some body)) with body.
  unfold try_except, call, bind, emit, asks, lift, ret.
  destruct (markdown env (pdf_display (b64encode body))) as [[]|e];
    cbn; eexists; (split; [reflexivity|]); eauto.
Qed.

Lemma truthy_url_Some (pdf_url : string) :
  pdf_url ≠ "" → truthy_url (Some pdf_url) = true.
Proof. by destruct pdf_url. Qed.

Lemma truthy_map_lookup (m : imei_map) (K v : string) :
  m !! K = Some v → truthy_map (Some m) = true.
Proof.
  intros H. apply bool_decide_eq_true_2. intros ->.
  by rewrite lookup_empty in H.
Qed.

(** The presenter on content with bytes, with the answer of the front
    end deciding what follows the frame. *)
Lemma display_pdf_in_streamlit_bytes_exact
    (body : bytes) (env : Env) (c : option CacheEntry) :
  body ≠ [] →
  display_pdf_in_streamlit (Some body) env c
  = (Ok tt, c,
     [ download_button body;
       st_markdown (pdf_display (b64encode body)) true ]
     ++ match markdown env (pdf_display (b64encode body)) with
        | Ok _ => []
        | Raise e => [st_warning (embed_warning_message e)]
        end).
Proof.
  intros Hne.
  assert (Ht : truthy_bytes (Some body) = true) by by destruct body.
  unfold display_pdf_in_streamlit. rewrite Ht.
  change (default [] (Some body)) with body.
  unfold try_except, call, bind, emit, asks, lift, ret.
  by destruct (markdown env (pdf_display (b64encode body))) as [[]|e].
Qed.

(** X1.  A valid key that the mapping sends to a non-empty reference, whose
    fetch answers outside 4xx/5xx with at least one byte: the search draws
    the success notice, makes the one GET to that reference, offers the
    fetched bytes for download and draws the frame, in this order, after
    whatever the loader did.  Nothing follows when the front end draws the
    frame; when drawing it raises [e], exactly the warning about [e]
    follows.  Either way the search ends normally. *)
Theorem search_hit_presents_document
    (K : string) (env : Env) (c c' : option CacheEntry) (m : imei_map)
    (t : list effect) (pdf_url : string) (r : Response) (body : bytes) :
  valid_imei K →
  get_google_sheet_data env c = (Ok (Some m), c', t) →
  m !! K = Some pdf_url → pdf_url ≠ "" →
  get env pdf_url = Ok r → ¬ error_status (status_code r) →
  content r = Ok body → body ≠ [] →
  search K env c
  = (Ok tt, c',
     t ++ [ st_success (found_message K); requests_get pdf_url;
            download_button body;
            st_markdown (pdf_display (b64encode body)) true ]
       ++ match markdown env (pdf_display (b64encode body)) with
          | Ok _ => []
          | Raise e => [st_warning (embed_warning_message e)]
          end).
Proof.
  intros HK Hload Hm Hurl Hr Hs Hc Hbody.
  rewrite (valid_imei_search_run K env c c' _ t HK Hload).
  unfold show_result. rewrite (truthy_map_lookup m K pdf_url Hm).
  change (default ∅ (Some m) !! K) with (m !! K). rewrite Hm.
  rewrite (truthy_url_Some pdf_url Hurl).
  change (default "" (Some pdf_url)) with pdf_url.
  unfold bind, emit.
  rewrite (download_pdf_as_bytes_ok pdf_url env c' r body Hr Hs Hc).
  by rewrite (display_pdf_in_streamlit_bytes_exact body env c' Hbody).
Qed.

Lemma search_hit_presents_document_witness :
  search sample_imei
    (sample_env [record (PyInt 123456789012345) (PyStr sample_url)] ok_web) None
  = (Ok tt,
     Some {| cached_value := Some {[ sample_imei := sample_url ]};
             cached_elements := []; expires := (0 + TTL)%Q |},
     sheet_calls (sample_env [] ok_web)
     ++ [ st_success (found_message sample_imei); requests_get sample_url;
          download_button sample_pdf;
          st_markdown (pdf_display (b64encode sample_pdf)) true ])
  ∧ search sample_imei env_frame_fails None
    = (Ok tt,
       Some {| cached_value := Some {[ sample_imei := sample_url ]};
               cached_elements := []; expires := (0 + TTL)%Q |},
       sheet_calls (sample_env [] ok_web)
       ++ [ st_success (found_message sample_imei); requests_get sample_url;
            download_button sample_pdf;
            st_markdown (pdf_display (b64encode sample_pdf)) true;
            st_warning (embed_warning_message (OtherException "MessageSizeError")) ]).
Proof.
  split.
  - apply (search_hit_presents_document sample_imei
             (sample_env [record (PyInt 123456789012345) (PyStr sample_url)] ok_web)
             None _ {[ sample_imei := sample_url ]} _ sample_url
             {| status_code := 200; reason := "OK"; url := sample_url;
                content := Ok sample_pdf |}).
    + split; reflexivity.
    + vm_compute. reflexivity.
    + reflexivity.
    + discriminate.
    + reflexivity.
    + unfold error_status. cbn. lia.
    + reflexivity.
    + discriminate.
  - apply (search_hit_presents_document sample_imei env_frame_fails
             None _ {[ sample_imei := sample_url ]} _ sample_url
             {| status_code := 200; reason := "OK"; url := sample_url;
                content := Ok sample_pdf |}).
    + split; reflexivity.
    + vm_compute. reflexivity.
    + reflexivity.
    + discriminate.
    + reflexivity.
    + unfold error_status. cbn. lia.
    + reflexivity.
    + discriminate.
Defined.

(** X2.  When the mapping has entries, a valid key that it does not hold,
    or that it sends to the empty string, gets the "not found" error and
    nothing else: no GET, no presenter. *)
Theorem search_reports_not_found
    (K : string) (env : Env) (c c' : option CacheEntry) (m : imei_map)
    (t : list effect) :
  valid_imei K →
  get_google_sheet_data env c = (Ok (Some m), c', t) →
  m ≠ ∅ →
  m !! K = None ∨ m !! K = Some "" →
  search K env c = (Ok tt, c', t ++ [st_error (not_found_message K)]).
Proof.
  intros HK Hload Hne Hk.
  rewrite (valid_imei_search_run K env c c' _ t HK Hload).
  unfold show_result, truthy_map.
  change (default ∅ (Some m) !! K) with (m !! K).
  rewrite (bool_decide_eq_true_2 _ Hne).
  by destruct Hk as [-> | ->].
Qed.

Lemma search_reports_not_found_witness :
  search sample_imei (sample_env blank_url_records ok_web) None
  = (Ok tt,
     Some {| cached_value :=
               Some {[ sample_imei := ""; "000000000000000" := sample_url ]};
             cached_elements := []; expires := (0 + TTL)%Q |},
     sheet_calls (sample_env [] ok_web)
     ++ [st_error (not_found_message sample_imei)]).
Proof.
  apply (search_reports_not_found sample_imei
           (sample_env blank_url_records ok_web) None _
           {[ sample_imei := ""; "000000000000000" := sample_url ]}).
  - split; reflexivity.
  - vm_compute. reflexivity.
  - intros H. by apply (f_equal (λ m : imei_map, m !! sample_imei)) in H.
  - right. reflexivity.
Defined.

(** X3.  A hit whose fetch fails — a 4xx or 5xx answer, or an exception of
    [requests] from the GET or from reading the body — shows, after the
    success notice and the one GET, the download error and then the
    "no PDF" warning; no download action is offered. *)
Theorem search_fetch_failure
    (K : string) (env : Env) (c c' : option CacheEntry) (m : imei_map)
    (t : list effect) (pdf_url : string) :
  valid_imei K →
  get_google_sheet_data env c = (Ok (Some m), c', t) →
  m !! K = Some pdf_url → pdf_url ≠ "" →
  fetch_fails env pdf_url →
  ∃ msg,
    search K env c
    = (Ok tt, c',
       t ++ [ st_success (found_message K); requests_get pdf_url;
              st_error (download_error_message pdf_url (RequestException msg));
              st_warning no_pdf_message ]).
Proof.
  intros HK Hload Hm Hurl Hfail.
  rewrite (valid_imei_search_run K env c c' _ t HK Hload).
  destruct (download_pdf_as_bytes_fails pdf_url env c' Hfail) as [msg Hd].
  exists msg.
  unfold show_result. rewrite (truthy_map_lookup m K pdf_url Hm).
  change (default ∅ (Some m) !! K) with (m !! K). rewrite Hm.
  rewrite (truthy_url_Some pdf_url Hurl).
  change (default "" (Some pdf_url)) with pdf_url.
  unfold bind at 1 2 3 4, emit. by rewrite Hd.
Qed.

Lemma search_fetch_failure_witness :
  ∃ msg,
    search sample_imei
      (sample_env [record (PyStr sample_imei) (PyStr sample_url)] no_web) None
    = (Ok tt,
       Some {| cached_value := Some {[ sample_imei := sample_url ]};
               cached_elements := []; expires := (0 + TTL)%Q |},
       sheet_calls (sample_env [] ok_web)
       ++ [ st_success (found_message sample_imei); requests_get sample_url;
            st_error (download_error_message sample_url (RequestException msg));
            st_warning no_pdf_message ]).
Proof.
  apply (search_fetch_failure sample_imei
           (sample_env [record (PyStr sample_imei) (PyStr sample_url)] no_web)
           None _ {[ sample_imei := sample_url ]}).
  - split; reflexivity.
  - vm_compute. reflexivity.
  - reflexivity.
  - discriminate.
  - left. by eexists.
Defined.

(** X4.  The fetcher catches only the exceptions of [requests]: when the
    GET of a hit raises anything else, the search ends with that exception
    right after the GET — the success notice is on the page, but neither an
    error nor the presenter follows. *)
Theorem search_other_exception_propagates
    (K : string) (env : Env) (c c' : option CacheEntry) (m : imei_map)
    (t : list effect) (pdf_url : string) (e : exn) :
  valid_imei K →
  get_google_sheet_data env c = (Ok (Some m), c', t) →
  m !! K = Some pdf_url → pdf_url ≠ "" →
  get env pdf_url = Raise e →
  (∀ msg, e ≠ RequestException msg) →
  search K env c
  = (Raise e, c',
     t ++ [st_success (found_message K); requests_get pdf_url]).
Proof.
  intros HK Hload Hm Hurl Hr He.
  rewrite (valid_imei_search_run K env c c' _ t HK Hload).
  unfold show_result. rewrite (truthy_map_lookup m K pdf_url Hm).
  change (default ∅ (Some m) !! K) with (m !! K). rewrite Hm.
  rewrite (truthy_url_Some pdf_url Hurl).
  change (default "" (Some pdf_url)) with pdf_url.
  unfold download_pdf_as_bytes, try_except, call, bind, emit, asks, lift, ret.
  rewrite Hr. destruct e; try reflexivity. by destruct (He msg).
Qed.

Lemma search_other_exception_propagates_witness :
  search sample_imei
    (sample_env [record (PyStr sample_imei) (PyStr sample_url)] broken_web) None
  = (Raise (OtherException "idna codec failed"),
     Some {| cached_value := Some {[ sample_imei := sample_url ]};
             cached_elements := []; expires := (0 + TTL)%Q |},
     sheet_calls (sample_env [] ok_web)
     ++ [st_success (found_message sample_imei); requests_get sample_url]).
Proof.
  apply (search_other_exception_propagates sample_imei
           (sample_env [record (PyStr sample_imei) (PyStr sample_url)] broken_web)
           None _ {[ sample_imei := sample_url ]}).
  - split; reflexivity.
  - vm_compute. reflexivity.
  - reflexivity.
  - discriminate.
  - reflexivity.
  - discriminate.
Defined.

(** ** The snapshot a successful load returns *)

Lemma load_value_for_row_in
    (env : Env) (c : option CacheEntry) (records : list row) (m : imei_map) :
  sheet_answers env records →
  value_of (get_google_sheet_data_wrapped env c) = Ok (Some m)
  ↔ for_row_in records ∅ = Ok m.
Proof.
  intros Henv.
  pose proof (get_google_sheet_data_try_reads env c _ Henv) as Htry.
  destruct (for_row_in records ∅) as [m'|e] eqn:Hf.
  - rewrite (get_google_sheet_data_wrapped_ok _ _ _ _ _ Htry). cbn.
    split; congruence.
  - rewrite (get_google_sheet_data_wrapped_raise _ _ _ _ _ Htry). cbn.
    split; congruence.
Qed.

(** Every admitted row leaves its key in the mapping. *)
Lemma for_row_in_keeps_keys
    (l : list row) (m0 m : imei_map) (k : string) :
  for_row_in l m0 = Ok m →
  is_Some (m0 !! k) ∨ (∃ r, r ∈ l ∧ included r = true ∧ key_of r = k) →
  is_Some (m !! k).
Proof.
  revert m0. induction l as [|r l IH]; intros m0 H Hk.
  - injection H as ->. destruct Hk as [Hk|(r & Hin & _)]; [done|].
    by apply elem_of_nil in Hin.
  - cbn [for_row_in] in H.
    destruct (PyStr.truthy _ && truthy _) eqn:Hinc.
    + destruct (strip_method _) as [u|e]; [|discriminate].
      apply (IH _ H).
      destruct (decide (key_of r = k)) as [Heq|Hne].
      * left. unfold key_of in Heq. rewrite Heq, lookup_insert_eq. by eexists.
      * destruct Hk as [Hk|(r' & Hin & Hr' & Hkey)].
        -- left. unfold key_of in Hne. by rewrite lookup_insert_ne.
        -- apply elem_of_cons in Hin as [->|Hin]; [done|]. right. eauto.
    + apply (IH _ H).
      destruct Hk as [Hk|(r' & Hin & Hr' & Hkey)]; [by left|].
      apply elem_of_cons in Hin as [->|Hin]; [|right; eauto].
      unfold included in Hr'. congruence.
Qed.

(** X5.  The keys of a snapshot are exactly the stripped identifiers of the
    rows that line 62 admits: no admitted row is lost, and no key comes
    from anywhere else. *)
Theorem snapshot_keys
    (env : Env) (c : option CacheEntry) (records : list row) (m : imei_map)
    (k : string) :
  sheet_answers env records →
  value_of (get_google_sheet_data_wrapped env c) = Ok (Some m) →
  is_Some (m !! k) ↔ ∃ r, r ∈ records ∧ included r = true ∧ key_of r = k.
Proof.
  intros Henv Hm. apply (load_value_for_row_in env c records m Henv) in Hm.
  split.
  - intros [v Hv].
    destruct (for_row_in_origin records ∅ m k v Hm Hv)
      as [Hempty|(r & u & Hin & Hinc & Hkey & _)].
    + by rewrite lookup_empty in Hempty.
    + eauto.
  - intros Hr. apply (for_row_in_keeps_keys records ∅ m k Hm). by right.
Qed.

Lemma snapshot_keys_witness :
  is_Some (({[ sample_imei := "https://example.com/new.pdf";
               "000000000000000" := sample_url ]} : imei_map) !! sample_imei)
  ↔ ∃ r, r ∈ duplicate_records ∧ included r = true ∧ key_of r = sample_imei.
Proof.
  apply (snapshot_keys (sample_env duplicate_records ok_web) None).
  - apply sample_env_answers.
  - vm_compute. reflexivity.
Defined.

(** X6.  Rows that line 62 turns away play no part: the loop gives the
    same result — the same mapping or the same exception — on the
    records with those rows removed. *)
Theorem for_row_in_ignores_skipped_rows (records : list row) (m0 : imei_map) :
  for_row_in (filter (λ r, included r = true) records) m0
  = for_row_in records m0.
Proof.
  revert m0. induction records as [|r l IH]; intros m0; [reflexivity|].
  destruct (included r) eqn:Hinc.
  - rewrite filter_cons_True by done. unfold included in Hinc.
    cbn [for_row_in]. rewrite Hinc.
    destruct (strip_method _); [apply IH|reflexivity].
  - rewrite filter_cons_False by (by rewrite Hinc). unfold included in Hinc.
    cbn [for_row_in]. rewrite Hinc. apply IH.
Qed.

Lemma for_row_in_str_rows (l : list row) (m0 : imei_map) :
  (∀ r, r ∈ l → included r = true →
        is_str (row_get r PDF_URL_COLUMN_HEADER) = true) →
  ∃ m, for_row_in l m0 = Ok m.
Proof.
  revert m0. induction l as [|r l IH]; intros m0 Hl; [by eexists|].
  assert (Hl' : ∀ r', r' ∈ l → included r' = true →
                      is_str (row_get r' PDF_URL_COLUMN_HEADER) = true).
  { intros r' Hin. apply Hl. by right. }
  cbn [for_row_in].
  destruct (PyStr.truthy _ && truthy _) eqn:Hinc; [|by apply IH].
  specialize (Hl r (list_elem_of_here _ _) Hinc).
  destruct (row_get r PDF_URL_COLUMN_HEADER); try discriminate.
  cbn [strip_method]. by apply IH.
Qed.

Lemma for_row_in_non_str_row (l : list row) (m0 : imei_map) (r : row) :
  r ∈ l → included r = true →
  is_str (row_get r PDF_URL_COLUMN_HEADER) = false →
  ∃ e, for_row_in l m0 = Raise e.
Proof.
  revert m0. induction l as [|r' l IH]; intros m0 Hin Hinc Hstr.
  - by apply elem_of_nil in Hin.
  - cbn [for_row_in]. apply elem_of_cons in Hin as [<-|Hin].
    + unfold included in Hinc. rewrite Hinc.
      destruct (row_get r PDF_URL_COLUMN_HEADER); try discriminate; by eexists.
    + destruct (PyStr.truthy _ && truthy _); [|by apply IH].
      destruct (strip_method _); [by apply IH|by eexists].
Qed.

(** X7.  When the sheet is read, the load succeeds exactly when every row
    that line 62 admits has a [str] in the reference column; it then makes
    the four calls and draws nothing. *)
Theorem load_succeeds_iff
    (env : Env) (c : option CacheEntry) (records : list row) :
  sheet_answers env records →
  (∃ m, get_google_sheet_data_wrapped env c = (Ok (Some m), c, sheet_calls env))
  ↔ (∀ r, r ∈ records → included r = true →
          is_str (row_get r PDF_URL_COLUMN_HEADER) = true).
Proof.
  intros Henv.
  pose proof (get_google_sheet_data_try_reads env c _ Henv) as Htry.
  split.
  - intros [m Hm] r Hin Hinc.
    destruct (is_str (row_get r PDF_URL_COLUMN_HEADER)) eqn:Hstr; [done|].
    destruct (for_row_in_non_str_row records ∅ r Hin Hinc Hstr) as [e He].
    rewrite He in Htry.
    rewrite (get_google_sheet_data_wrapped_raise _ _ _ _ _ Htry) in Hm.
    discriminate.
  - intros Hall. destruct (for_row_in_str_rows records ∅ Hall) as [m Hm].
    rewrite Hm in Htry. exists m.
    apply (get_google_sheet_data_wrapped_ok _ _ _ _ _ Htry).
Qed.

Lemma load_succeeds_iff_witness :
  (∃ m, get_google_sheet_data_wrapped
          (sample_env blank_imei_numeric_url_records ok_web) None
        = (Ok (Some m), None,
           sheet_calls (sample_env blank_imei_numeric_url_records ok_web)))
  ↔ (∀ r, r ∈ blank_imei_numeric_url_records → included r = true →
          is_str (row_get r PDF_URL_COLUMN_HEADER) = true).
Proof.
  apply (load_succeeds_iff (sample_env blank_imei_numeric_url_records ok_web)
           None blank_imei_numeric_url_records).
  apply sample_env_answers.
Defined.

(** *** [str.strip] *)

Lemma rev_app_spec (s acc : string) :
  String.rev_app s acc = String.rev s +:+ acc.
Proof.
  unfold String.rev. revert acc.
  induction s as [|a s IH]; intros acc; [reflexivity|].
  cbn [String.rev_app]. rewrite (IH (String a acc)), (IH (String a "")).
  by rewrite <- append_assoc.
Qed.

Lemma rev_app_rev_app (s a b : string) :
  String.rev_app (String.rev_app s a) b = String.rev_app a (s +:+ b).
Proof.
  revert a b. induction s as [|ch s IH]; intros a b; [reflexivity|].
  cbn [String.rev_app]. by rewrite IH.
Qed.

Lemma rev_involutive (s : string) : String.rev (String.rev s) = s.
Proof.
  unfold String.rev. rewrite rev_app_rev_app. cbn [String.rev_app].
  apply append_empty_r.
Qed.

Lemma rev_snoc (s : string) (ch : ascii) :
  String.rev (s +:+ String ch "") = String ch (String.rev s).
Proof.
  unfold String.rev.
  assert (H : ∀ acc, String.rev_app (s +:+ String ch "") acc
                     = String ch (String.rev_app s acc)); [|apply H].
  induction s as [|a s IH]; intros acc; [reflexivity|].
  change (String.rev_app (s +:+ String ch "") (String a acc)
          = String ch (String.rev_app s (String a acc))).
  apply IH.
Qed.

(** A string that does not start with whitespace. *)
Lemma lstrip_head (s : string) :
  match PyStr.lstrip s with
  | "" => True
  | String ch _ => PyStr.isspace ch = false
  end.
Proof.
  induction s as [|ch s IH]; [done|]. cbn [PyStr.lstrip].
  by destruct (PyStr.isspace ch) eqn:Hch.
Qed.

Lemma lstrip_id (s : string) :
  match s with "" => True | String ch _ => PyStr.isspace ch = false end →
  PyStr.lstrip s = s.
Proof. destruct s as [|ch s]; [done|]. cbn [PyStr.lstrip]. by intros ->. Qed.

Lemma lstrip_snoc (s : string) (ch : ascii) :
  PyStr.isspace ch = false →
  ∃ z, PyStr.lstrip (s +:+ String ch "") = z +:+ String ch "".
Proof.
  intros Hch. induction s as [|a s [z IH]].
  - exists "". change ("" +:+ String ch "") with (String ch "").
    cbn [PyStr.lstrip]. by rewrite Hch.
  - change (String a s +:+ String ch "") with (String a (s +:+ String ch "")).
    cbn [PyStr.lstrip]. destruct (PyStr.isspace a); [by exists z|].
    by exists (String a s).
Qed.

(** Stripping on the right leaves the first character in place. *)
Lemma rstrip_head (s : string) :
  PyStr.lstrip s = s → PyStr.lstrip (PyStr.rstrip s) = PyStr.rstrip s.
Proof.
  intros Hs. destruct s as [|ch s]; [reflexivity|].
  assert (Hch : PyStr.isspace ch = false).
  { pose proof (lstrip_head (String ch s)) as H. by rewrite Hs in H. }
  unfold PyStr.rstrip.
  assert (String.rev (String ch s) = String.rev s +:+ String ch "") as ->.
  { unfold String.rev at 1. cbn [String.rev_app]. apply rev_app_spec. }
  destruct (lstrip_snoc (String.rev s) ch Hch) as [z ->].
  rewrite rev_snoc. cbn [PyStr.lstrip]. by rewrite Hch.
Qed.

Lemma lstrip_idemp (s : string) : PyStr.lstrip (PyStr.lstrip s) = PyStr.lstrip s.
Proof. apply lstrip_id, lstrip_head. Qed.

Lemma rstrip_idemp (s : string) : PyStr.rstrip (PyStr.rstrip s) = PyStr.rstrip s.
Proof. unfold PyStr.rstrip. by rewrite rev_involutive, lstrip_idemp. Qed.

(** [strip] leaves nothing more to strip: applying it again changes
    nothing, and its result neither starts nor ends with whitespace. *)
Theorem strip_idempotent (s : string) :
  PyStr.strip (PyStr.strip s) = PyStr.strip s
  ∧ PyStr.lstrip (PyStr.strip s) = PyStr.strip s
  ∧ PyStr.rstrip (PyStr.strip s) = PyStr.strip s.
Proof.
  assert (Hl : PyStr.lstrip (PyStr.strip s) = PyStr.strip s).
  { unfold PyStr.strip. apply rstrip_head, lstrip_idemp. }
  assert (Hr : PyStr.rstrip (PyStr.strip s) = PyStr.strip s).
  { unfold PyStr.strip. apply rstrip_idemp. }
  split; [|by split].
  unfold PyStr.strip at 1. by rewrite Hl, Hr.
Qed.

(** X8.  Every key and every value of a snapshot is whitespace-trimmed:
    stripping it again gives it back. *)
Theorem snapshot_entries_trimmed
    (env : Env) (c : option CacheEntry) (records : list row) (m : imei_map)
    (k v : string) :
  sheet_answers env records →
  value_of (get_google_sheet_data_wrapped env c) = Ok (Some m) →
  m !! k = Some v →
  PyStr.strip k = k ∧ PyStr.strip v = v.
Proof.
  intros Henv Hm Hk. apply (load_value_for_row_in env c records m Henv) in Hm.
  destruct (for_row_in_origin records ∅ m k v Hm Hk)
    as [Hempty|(r & u & _ & _ & <- & _ & ->)].
  - by rewrite lookup_empty in Hempty.
  - unfold key_of. split; apply strip_idempotent.
Qed.

Lemma snapshot_entries_trimmed_witness :
  PyStr.strip sample_imei = sample_imei
  ∧ PyStr.strip "https://example.com/new.pdf" = "https://example.com/new.pdf".
Proof.
  apply (snapshot_entries_trimmed (sample_env duplicate_records ok_web) None
           duplicate_records
           {[ sample_imei := "https://example.com/new.pdf";
              "000000000000000" := sample_url ]}).
  - apply sample_env_answers.
  - vm_compute. reflexivity.
  - reflexivity.
Defined.

(** *** Numeric identifier cells *)

Lemma all_chars_app (p : ascii → bool) (s1 s2 : string) :
  PyStr.all_chars p (s1 +:+ s2) = PyStr.all_chars p s1 && PyStr.all_chars p s2.
Proof.
  induction s1 as [|a s1 IH]; [reflexivity|].
  change (String a s1 +:+ s2) with (String a (s1 +:+ s2)).
  cbn [PyStr.all_chars]. by rewrite IH, andb_assoc.
Qed.

Lemma all_chars_rev (p : ascii → bool) (s : string) :
  PyStr.all_chars p (String.rev s) = PyStr.all_chars p s.
Proof.
  induction s as [|a s IH]; [reflexivity|].
  unfold String.rev. cbn [String.rev_app]. rewrite rev_app_spec, all_chars_app.
  cbn [PyStr.all_chars]. rewrite IH, andb_true_r. apply andb_comm.
Qed.

(** A string without whitespace is its own [strip]. *)
Lemma strip_no_space (s : string) :
  PyStr.all_chars (λ ch, negb (PyStr.isspace ch)) s = true →
  PyStr.strip s = s.
Proof.
  intros Hs.
  assert (Hhead : ∀ x, PyStr.all_chars (λ ch, negb (PyStr.isspace ch)) x = true →
                       PyStr.lstrip x = x).
  { intros [|ch x]; [done|]. cbn [PyStr.all_chars PyStr.lstrip].
    intros [Hch _]%andb_prop. by destruct (PyStr.isspace ch). }
  unfold PyStr.strip, PyStr.rstrip. rewrite (Hhead s Hs).
  rewrite (Hhead (String.rev s)) by by rewrite all_chars_rev.
  apply rev_involutive.
Qed.

Lemma pretty_N_go_chars (p : ascii → bool) (x : N) (s : string) :
  (∀ d, p (pretty_N_char d) = true) →
  ∃ pre, pretty_N_go x s = pre +:+ s ∧ PyStr.all_chars p pre = true
         ∧ ((0 < x)%N → pre ≠ "").
Proof.
  intros Hp. revert s.
  induction (N.lt_wf_0 x) as [x _ IH]; intros s.
  destruct (decide (0 < x)%N) as [Hx|Hx].
  - rewrite (pretty_N_go_step x s Hx).
    destruct (IH (x `div` 10)%N (N.div_lt x 10 Hx eq_refl)
                (String (pretty_N_char (x `mod` 10)) s))
      as (pre & -> & Hpre & _).
    exists (pre +:+ String (pretty_N_char (x `mod` 10)) "").
    rewrite <- append_assoc. split; [reflexivity|].
    rewrite all_chars_app, Hpre. cbn [PyStr.all_chars].
    rewrite Hp. split; [reflexivity|]. intros _. by destruct pre.
  - assert (x = 0%N) as -> by lia. exists "". by rewrite pretty_N_go_0.
Qed.

Lemma pretty_Z_chars (n : Z) :
  PyStr.all_chars (λ ch, negb (PyStr.isspace ch)) (pretty n) = true
  ∧ pretty n ≠ "".
Proof.
  assert (Hd : ∀ d, negb (PyStr.isspace (pretty_N_char d)) = true).
  { intros d. unfold pretty_N_char. by repeat case_match. }
  assert (Hpos : ∀ q : positive,
            PyStr.all_chars (λ ch, negb (PyStr.isspace ch)) (pretty q) = true
            ∧ pretty q ≠ "").
  { intros q. unfold pretty, pretty_positive, pretty, pretty_N.
    rewrite decide_False by done.
    destruct (pretty_N_go_chars (λ ch, negb (PyStr.isspace ch)) (N.pos q) "" Hd)
      as (pre & -> & Hpre & Hne).
    rewrite append_empty_r. split; [done|]. apply Hne. lia. }
  destruct n as [|q|q]; [done| |].
  - apply Hpos.
  - change (pretty (Z.neg q)) with ("-" +:+ pretty q).
    rewrite all_chars_app. split; [by rewrite (proj1 (Hpos q))|done].
Qed.

(** A row whose identifier cell holds an integer: its key is the decimal
    writing of the integer, and line 62 admits it exactly when its reference
    is truthy. *)
Lemma numeric_identifier_row (r : row) (n : Z) :
  row_get r IMEI_COLUMN_HEADER = PyInt n →
  key_of r = pretty n
  ∧ included r = truthy (row_get r PDF_URL_COLUMN_HEADER).
Proof.
  intros Hn. unfold key_of, included. rewrite Hn. cbn [str].
  destruct (pretty_Z_chars n) as [Hchars Hne]. split.
  - by apply strip_no_space.
  - by destruct (pretty n).
Qed.

(** X9.  On a successful load, a row whose identifier cell holds the
    integer [n] — 0 included — and whose reference is a non-empty [str] is
    in the snapshot under the decimal writing of [n]; the value there is
    that row's stripped reference when no later admitted row has the same
    key. *)
Theorem numeric_identifier_key
    (env : Env) (c : option CacheEntry) (pre post : list row) (r : row)
    (n : Z) (u : string) (m : imei_map) :
  sheet_answers env (pre ++ r :: post) →
  row_get r IMEI_COLUMN_HEADER = PyInt n →
  row_get r PDF_URL_COLUMN_HEADER = PyStr u → u ≠ "" →
  value_of (get_google_sheet_data_wrapped env c) = Ok (Some m) →
  is_Some (m !! pretty n)
  ∧ ((∀ r', r' ∈ post → included r' = true → key_of r' ≠ pretty n) →
     m !! pretty n = Some (PyStr.strip u)).
Proof.
  intros Henv Hn Hu Hne Hm.
  destruct (numeric_identifier_row r n Hn) as [Hkey Hinc].
  rewrite Hu in Hinc. cbn [truthy] in Hinc.
  assert (Hadm : included r = true) by (rewrite Hinc; by destruct u).
  apply (load_value_for_row_in env c _ m Henv) in Hm.
  split.
  - apply (for_row_in_keeps_keys _ ∅ m (pretty n) Hm). right.
    exists r. split; [|done]. apply elem_of_app. right. by left.
  - intros Hpost. rewrite for_row_in_app in Hm.
    destruct (for_row_in pre ∅) as [m1|e1]; [|discriminate].
    rewrite (for_row_in_cons_str r post m1 u Hadm Hu) in Hm.
    rewrite (for_row_in_other_keys post (pretty n) _ m Hpost Hm).
    rewrite Hkey. apply lookup_insert_eq.
Qed.

Lemma numeric_identifier_key_witness :
  is_Some (({[ "0" := sample_url ]} : imei_map) !! "0")
  ∧ ((∀ r', r' ∈ [] → included r' = true → key_of r' ≠ "0") →
     ({[ "0" := sample_url ]} : imei_map) !! "0" = Some (PyStr.strip sample_url)).
Proof.
  apply (numeric_identifier_key
           (sample_env [record (PyInt 0) (PyStr sample_url)] ok_web) None
           [] [] (record (PyInt 0) (PyStr sample_url)) 0 sample_url).
  - apply sample_env_answers.
  - reflexivity.
  - reflexivity.
  - discriminate.
  - vm_compute. reflexivity.
Defined.

(** ** What a search can and cannot do *)

Lemma search_cases (K : string) (env : Env) (c : option CacheEntry) :
  valid_imei K ∨ search K env c = (Ok tt, c, [rejection K]).
Proof.
  unfold search. destruct K as [|a K']; [by right|].
  cbn [PyStr.truthy negb rejection].
  destruct (PyStr.len (String a K') =? 15)%Z eqn:Hlen; cbn [negb orb];
    [|by right].
  destruct (PyStr.isdigit (String a K')) eqn:Hdig; cbn [negb]; [|by right].
  left. split; [by apply len_15|done].
Qed.

Lemma exn_is_request (e : exn) :
  (∃ msg, e = RequestException msg) ∨ (∀ msg, e ≠ RequestException msg).
Proof. destruct e; eauto. Qed.

(** The three ways [download_pdf_as_bytes] can end. *)
Lemma download_pdf_as_bytes_cases
    (pdf_url : string) (env : Env) (c : option CacheEntry) :
  (∃ r body, get env pdf_url = Ok r ∧ ¬ error_status (status_code r)
             ∧ content r = Ok body
             ∧ download_pdf_as_bytes pdf_url env c
               = (Ok (Some body), c, [requests_get pdf_url]))
  ∨ (∃ msg, download_pdf_as_bytes pdf_url env c
            = (Ok None, c,
               [ requests_get pdf_url;
                 st_error (download_error_message pdf_url (RequestException msg)) ]))
  ∨ (∃ e, (∀ msg, e ≠ RequestException msg)
          ∧ (get env pdf_url = Raise e
             ∨ ∃ r, get env pdf_url = Ok r ∧ content r = Raise e)
          ∧ download_pdf_as_bytes pdf_url env c
            = (Raise e, c, [requests_get pdf_url])).
Proof.
  destruct (get env pdf_url) as [r|e] eqn:Hr.
  - destruct (decide (400 ≤ status_code r < 600)%Z) as [Hs|Hs].
    { right; left. apply download_pdf_as_bytes_fails. right. eauto. }
    destruct (content r) as [body|e] eqn:Hc.
    { left. exists r, body. repeat split; try done.
      by apply (download_pdf_as_bytes_ok pdf_url env c r body). }
    destruct (exn_is_request e) as [[msg ->]|He].
    { right; left. apply download_pdf_as_bytes_fails. right. eauto 6. }
    right; right. exists e. split; [exact He|]. split; [eauto|].
    unfold download_pdf_as_bytes, try_except, call, bind, emit, asks, lift, ret.
    rewrite Hr; cbn. rewrite (raise_for_status_pass r Hs); cbn. rewrite Hc.
    destruct e; try reflexivity. by destruct (He msg).
  - destruct (exn_is_request e) as [[msg ->]|He].
    { right; left. apply download_pdf_as_bytes_fails. left. eauto. }
    right; right. exists e. split; [exact He|]. split; [eauto|].
    unfold download_pdf_as_bytes, try_except, call, bind, emit, asks, lift, ret.
    rewrite Hr. destruct e; try reflexivity. by destruct (He msg).
Qed.

(** The two ways [display_pdf_in_streamlit] can end. *)
Lemma display_pdf_in_streamlit_cases
    (pdf_bytes : option bytes) (env : Env) (c : option CacheEntry) :
  (truthy_bytes pdf_bytes = false
   ∧ display_pdf_in_streamlit pdf_bytes env c
     = (Ok tt, c, [st_warning no_pdf_message]))
  ∨ (∃ body rest,
       pdf_bytes = Some body ∧ body ≠ []
       ∧ display_pdf_in_streamlit pdf_bytes env c
         = (Ok tt, c,
            download_button body
            :: st_markdown (pdf_display (b64encode body)) true :: rest)
       ∧ (rest = [] ∨ ∃ e, rest = [st_warning (embed_warning_message e)])).
Proof.
  destruct (truthy_bytes pdf_bytes) eqn:Ht.
  - right. destruct pdf_bytes as [[|b body]|]; try discriminate.
    destruct (display_pdf_in_streamlit_bytes (b :: body) env c)
      as (rest & Hrun & Hrest); [done|].
    exists (b :: body), rest. by repeat split.
  - left. split; [done|]. unfold display_pdf_in_streamlit. by rewrite Ht.
Qed.

(** Everything [show_result] can do, path by path. *)
Lemma show_result_outcomes
    (K : string) (v : option imei_map) (env : Env) (c : option CacheEntry) :
  (* no hit: nothing, or the "not found" error *)
  (truthy_map v && truthy_url (default ∅ v !! K) = false
   ∧ ∃ t, show_result K v env c = (Ok tt, c, t)
          ∧ (t = [] ∨ t = [st_error (not_found_message K)]))
  ∨ ∃ m pdf_url,
      v = Some m ∧ m !! K = Some pdf_url ∧ pdf_url ≠ ""
      ∧ ( (* the fetch answers: the presenter runs *)
          (∃ r body shown,
             get env pdf_url = Ok r ∧ ¬ error_status (status_code r)
             ∧ content r = Ok body
             ∧ display_pdf_in_streamlit (Some body) env c = (Ok tt, c, shown)
             ∧ show_result K v env c
               = (Ok tt, c,
                  st_success (found_message K) :: requests_get pdf_url :: shown))
          (* the fetch fails: error, then the "no PDF" warning *)
          ∨ (∃ msg,
               show_result K v env c
               = (Ok tt, c,
                  [ st_success (found_message K); requests_get pdf_url;
                    st_error (download_error_message pdf_url
                                (RequestException msg));
                    st_warning no_pdf_message ]))
          (* the fetch raises something else: it propagates *)
          ∨ (∃ e,
               (∀ msg, e ≠ RequestException msg)
               ∧ (get env pdf_url = Raise e
                  ∨ ∃ r, get env pdf_url = Ok r ∧ content r = Raise e)
               ∧ show_result K v env c
                 = (Raise e, c,
                    [st_success (found_message K); requests_get pdf_url])) ).
Proof.
  destruct (truthy_map v && truthy_url (default ∅ v !! K)) eqn:Hhit.
  - right. apply andb_prop in Hhit as [Hmap Hurl].
    destruct v as [m|]; [|discriminate].
    change (default ∅ (Some m) !! K) with (m !! K) in Hurl.
    destruct (m !! K) as [pdf_url|] eqn:Hk; [|discriminate].
    assert (Hne : pdf_url ≠ "") by (intros ->; discriminate).
    exists m, pdf_url. repeat split; try done.
    unfold show_result. rewrite Hmap.
    change (default ∅ (Some m) !! K) with (m !! K). rewrite Hk, Hurl.
    change (default "" (Some pdf_url)) with pdf_url.
    unfold bind, emit.
    destruct (download_pdf_as_bytes_cases pdf_url env c)
      as [(r & body & Hr & Hs & Hc & ->)|[[msg ->]|(e & He & Hwhy & ->)]].
    + left.
      destruct (display_pdf_in_streamlit_cases (Some body) env c)
        as [[_ Hd]|(body' & rest & _ & _ & Hd & _)];
        rewrite Hd; eexists r, body, _; by repeat split.
    + right; left. exists msg. reflexivity.
    + right; right. exists e.
      split; [exact He|]. split; [exact Hwhy|reflexivity].
  - left. split; [done|]. unfold show_result.
    destruct (truthy_map v); cbn [andb] in Hhit.
    + rewrite Hhit. eexists. split; [reflexivity|by right].
    + eexists. split; [reflexivity|by left].
Qed.

Lemma http_calls_in_cons (e : effect) (t : list effect) :
  http_calls_in (e :: t)
  = if is_http_call e then e :: http_calls_in t else http_calls_in t.
Proof.
  unfold http_calls_in. rewrite filter_cons.
  destruct (is_http_call e); by case_decide.
Qed.

Lemma download_buttons_in_cons (e : effect) (t : list effect) :
  download_buttons_in (e :: t)
  = if is_download_button e then e :: download_buttons_in t
    else download_buttons_in t.
Proof.
  unfold download_buttons_in. rewrite filter_cons.
  destruct (is_download_button e); by case_decide.
Qed.

Lemma http_calls_in_app (t1 t2 : list effect) :
  http_calls_in (t1 ++ t2) = http_calls_in t1 ++ http_calls_in t2.
Proof. apply filter_app. Qed.

Lemma download_buttons_in_app (t1 t2 : list effect) :
  download_buttons_in (t1 ++ t2)
  = download_buttons_in t1 ++ download_buttons_in t2.
Proof. apply filter_app. Qed.

(** The presenter makes no GET and offers at most the bytes it is given. *)
Lemma display_pdf_in_streamlit_trace
    (pdf_bytes : option bytes) (env : Env) (c : option CacheEntry) (t : list effect) :
  trace_of (display_pdf_in_streamlit pdf_bytes env c) = t →
  http_calls_in t = []
  ∧ (download_buttons_in t = []
     ∨ ∃ body, pdf_bytes = Some body ∧ body ≠ []
               ∧ download_buttons_in t = [download_button body]).
Proof.
  intros <-.
  destruct (display_pdf_in_streamlit_cases pdf_bytes env c)
    as [[_ ->]|(body & rest & -> & Hne & -> & Hrest)]; [by split; [|left]|].
  cbn [trace_of snd].
  rewrite !http_calls_in_cons, !download_buttons_in_cons.
  cbn [is_http_call is_download_button download_button].
  destruct Hrest as [->|[e ->]]; (split; [done|]); right; by exists body.
Qed.

(** The decorated loader always answers. *)
Lemma get_google_sheet_data_returns (env : Env) (c : option CacheEntry) :
  ∃ v c' t, get_google_sheet_data env c = (Ok v, c', t).
Proof.
  destruct (cache_hit_or_miss env c) as [(entry & -> & Hlt)|Hmiss].
  - eexists _, _, _. unfold get_google_sheet_data. by apply st_cache_data_hit.
  - destruct (get_google_sheet_data_on_miss env c Hmiss) as (v & t & _ & H & _).
    by eexists _, _, _.
Qed.

(** With a slot the loader wrote, the decorated loader draws at most its
    own error, makes no GET, and writes such a slot again. *)
Lemma get_google_sheet_data_quiet (env : Env) (c : option CacheEntry) :
  cache_inv c →
  ∃ v entry t,
    get_google_sheet_data env c = (Ok v, Some entry, t)
    ∧ cache_inv (Some entry)
    ∧ http_calls_in t = []
    ∧ download_buttons_in t = [].
Proof.
  intros Hinv.
  destruct (cache_hit_or_miss env c) as [(entry & -> & Hlt)|Hmiss].
  - exists (cached_value entry), entry, (cached_elements entry).
    split; [unfold get_google_sheet_data; by apply st_cache_data_hit|].
    split; [done|].
    destruct (Hinv entry eq_refl) as [->|(_ & msg & ->)]; by split.
  - destruct (get_google_sheet_data_wrapped_shape env c)
      as (v & n & errs & Hrun & Hn & Herrs).
    assert (Herrs' : errs = [] ∨ ∃ msg, errs = [st_error msg]).
    { destruct Herrs as [->|(msg & -> & _)]; eauto. }
    destruct (take_sheet_calls env n errs Hn Herrs') as (_ & Hst & _ & _).
    eexists v, _, _. split.
    { unfold get_google_sheet_data.
      by apply (st_cache_data_miss TTL _ env c c v _ Hmiss Hrun). }
    split.
    { intros entry [= <-]. cbn. rewrite Hst.
      destruct Herrs as [->|(msg & -> & ->)]; [by left|right; eauto]. }
    assert (n = 1 ∨ n = 2 ∨ n = 3 ∨ n = 4)%nat as Hcases by lia.
    destruct Herrs' as [-> | [msg ->]];
      destruct Hcases as [-> | [-> | [-> | ->]]]; by split.
Qed.

(** X10.  A search makes at most one GET, and only to the reference the
    loader's mapping holds for the key that was typed. *)
Theorem search_fetches_only_the_mapped_reference
    (K : string) (env : Env) (c : option CacheEntry) :
  cache_inv c →
  http_calls_in (trace_of (search K env c)) = []
  ∨ ∃ m pdf_url,
      value_of (get_google_sheet_data env c) = Ok (Some m)
      ∧ m !! K = Some pdf_url
      ∧ http_calls_in (trace_of (search K env c)) = [requests_get pdf_url].
Proof.
  intros Hinv.
  destruct (search_cases K env c) as [HK| ->]; [|left; by destruct K].
  destruct (get_google_sheet_data_quiet env c Hinv)
    as (v & entry & t & Hrun & _ & Hhttp & _).
  rewrite (valid_imei_search_run K env c _ _ _ HK Hrun), Hrun.
  cbn [trace_of value_of fst snd]. rewrite http_calls_in_app, Hhttp.
  cbn [app].
  destruct (show_result_outcomes K v env (Some entry))
    as [(_ & t' & -> & Ht')
       |(m & pdf_url & -> & Hk & _ &
         [(r & body & shown & _ & _ & _ & Hshow & ->)
         |[[msg ->]|(e & _ & _ & ->)]])].
  - left. by destruct Ht' as [-> | ->].
  - right. exists m, pdf_url. repeat split; try done.
    cbn [trace_of snd]. rewrite !http_calls_in_cons. cbn [is_http_call].
    by rewrite (proj1 (display_pdf_in_streamlit_trace (Some body) env
                         (Some entry) shown ltac:(by rewrite Hshow))).
  - right. by exists m, pdf_url.
  - right. by exists m, pdf_url.
Qed.

Lemma cache_inv_None : cache_inv None.
Proof. intros entry H. discriminate. Qed.

Lemma search_fetches_only_the_mapped_reference_witness :
  http_calls_in (trace_of (search sample_imei
     (sample_env [record (PyStr sample_imei) (PyStr sample_url)] ok_web) None)) = []
  ∨ ∃ m pdf_url,
      value_of (get_google_sheet_data
        (sample_env [record (PyStr sample_imei) (PyStr sample_url)] ok_web) None)
      = Ok (Some m)
      ∧ m !! sample_imei = Some pdf_url
      ∧ http_calls_in (trace_of (search sample_imei
          (sample_env [record (PyStr sample_imei) (PyStr sample_url)] ok_web) None))
        = [requests_get pdf_url].
Proof.
  apply (search_fetches_only_the_mapped_reference sample_imei
           (sample_env [record (PyStr sample_imei) (PyStr sample_url)] ok_web) None).
  apply cache_inv_None.
Defined.

(** X11.  A search offers at most one download, and what it offers is the
    body of the answer — outside 4xx/5xx — to the GET of the reference the
    mapping holds for the key: never bytes from anywhere else. *)
Theorem download_offers_only_fetched_bytes
    (K : string) (env : Env) (c : option CacheEntry) :
  cache_inv c →
  download_buttons_in (trace_of (search K env c)) = []
  ∨ ∃ m pdf_url r body,
      value_of (get_google_sheet_data env c) = Ok (Some m)
      ∧ m !! K = Some pdf_url
      ∧ get env pdf_url = Ok r
      ∧ ¬ error_status (status_code r)
      ∧ content r = Ok body
      ∧ download_buttons_in (trace_of (search K env c)) = [download_button body].
Proof.
  intros Hinv.
  destruct (search_cases K env c) as [HK| ->]; [|left; by destruct K].
  destruct (get_google_sheet_data_quiet env c Hinv)
    as (v & entry & t & Hrun & _ & _ & Hbtn).
  rewrite (valid_imei_search_run K env c _ _ _ HK Hrun), Hrun.
  cbn [trace_of value_of fst snd]. rewrite download_buttons_in_app, Hbtn.
  cbn [app].
  destruct (show_result_outcomes K v env (Some entry))
    as [(_ & t' & -> & Ht')
       |(m & pdf_url & -> & Hk & _ &
         [(r & body & shown & Hr & Hs & Hc & Hshow & ->)
         |[[msg ->]|(e & _ & _ & ->)]])];
    cbn [trace_of snd].
  - left. by destruct Ht' as [-> | ->].
  - rewrite !download_buttons_in_cons. cbn [is_download_button].
    destruct (display_pdf_in_streamlit_trace (Some body) env (Some entry) shown
                ltac:(by rewrite Hshow))
      as [_ [Hnone|(body' & [= <-] & _ & Hone)]]; [by left|].
    right. by exists m, pdf_url, r, body.
  - by left.
  - by left.
Qed.

Lemma download_offers_only_fetched_bytes_witness :
  download_buttons_in (trace_of (search sample_imei
     (sample_env [record (PyStr sample_imei) (PyStr sample_url)] ok_web) None)) = []
  ∨ ∃ m pdf_url r body,
      value_of (get_google_sheet_data
        (sample_env [record (PyStr sample_imei) (PyStr sample_url)] ok_web) None)
      = Ok (Some m)
      ∧ m !! sample_imei = Some pdf_url
      ∧ get (sample_env [record (PyStr sample_imei) (PyStr sample_url)] ok_web)
            pdf_url = Ok r
      ∧ ¬ error_status (status_code r)
      ∧ content r = Ok body
      ∧ download_buttons_in (trace_of (search sample_imei
          (sample_env [record (PyStr sample_imei) (PyStr sample_url)] ok_web) None))
        = [download_button body].
Proof.
  apply (download_offers_only_fetched_bytes sample_imei
           (sample_env [record (PyStr sample_imei) (PyStr sample_url)] ok_web) None).
  apply cache_inv_None.
Defined.

(** X12.  A search ends normally whenever [requests] raises nothing but
    its own exceptions: no failure of the sheet, of the fetch or of the
    frame gets out of the handler. *)
Theorem search_returns_normally
    (K : string) (env : Env) (c : option CacheEntry) :
  (∀ u e, get env u = Raise e → ∃ msg, e = RequestException msg) →
  (∀ u r e, get env u = Ok r → content r = Raise e →
            ∃ msg, e = RequestException msg) →
  value_of (search K env c) = Ok tt.
Proof.
  intros Hget Hbody.
  destruct (search_cases K env c) as [HK| ->]; [|reflexivity].
  destruct (get_google_sheet_data_returns env c) as (v & c' & t & Hrun).
  rewrite (valid_imei_search_run K env c _ _ _ HK Hrun).
  cbn [value_of fst].
  destruct (show_result_outcomes K v env c')
    as [(_ & t' & -> & _)
       |(m & pdf_url & _ & _ & _ &
         [(r & body & shown & _ & _ & _ & _ & ->)
         |[[msg ->]|(e & He & Hwhy & _)]])];
    try reflexivity.
  exfalso. destruct Hwhy as [Hr|(r & Hr & Hc)].
  - destruct (Hget _ _ Hr) as [msg ->]. by apply (He msg).
  - destruct (Hbody _ _ _ Hr Hc) as [msg ->]. by apply (He msg).
Qed.

Lemma search_returns_normally_witness :
  value_of (search sample_imei
              (sample_env [record (PyStr sample_imei) (PyStr sample_url)] no_web)
              None) = Ok tt.
Proof.
  apply (search_returns_normally sample_imei
           (sample_env [record (PyStr sample_imei) (PyStr sample_url)] no_web) None).
  - intros u e [= <-]. by eexists.
  - intros u r e [=].
Defined.

(** ** The cache slot over time *)

Lemma search_keeps_cache_inv_aux
    (K : string) (env : Env) (c : option CacheEntry) :
  cache_inv c → cache_inv (cache_of (search K env c)).
Proof.
  intros Hinv.
  destruct (search_cases K env c) as [HK| ->]; [|done].
  destruct (get_google_sheet_data_quiet env c Hinv)
    as (v & entry & t & Hrun & Hinv' & _).
  by rewrite (valid_imei_search_run K env c _ _ _ HK Hrun).
Qed.

(** X13.  Whatever is typed and whatever the world answers, a search
    leaves the cache slot as the loader writes it: a value with nothing to
    replay, or [None] with the one error to replay; and it always leaves
    the slot filled once the input was valid. *)
Theorem search_keeps_cache_inv
    (K : string) (env : Env) (c : option CacheEntry) :
  cache_inv c →
  cache_inv (cache_of (search K env c))
  ∧ (valid_imei K → is_Some (cache_of (search K env c))).
Proof.
  intros Hinv. split; [by apply search_keeps_cache_inv_aux|].
  intros HK.
  destruct (get_google_sheet_data_quiet env c Hinv)
    as (v & entry & t & Hrun & _).
  by rewrite (valid_imei_search_run K env c _ _ _ HK Hrun).
Qed.

Lemma search_keeps_cache_inv_witness :
  cache_inv (cache_of (search sample_imei env_no_spreadsheet None))
  ∧ (valid_imei sample_imei →
     is_Some (cache_of (search sample_imei env_no_spreadsheet None))).
Proof.
  apply (search_keeps_cache_inv sample_imei env_no_spreadsheet None).
  apply cache_inv_None.
Defined.

(** X14.  A failed load is remembered like any other: for the next 600
    seconds a search reads nothing from the sheet and shows the error of
    the failed attempt again, whatever the sheet has become. *)
Theorem failed_load_is_replayed
    (K : string) (env1 env2 : Env) (c0 : option CacheEntry) (e : exn) :
  valid_imei K →
  cache_misses env1 c0 →
  value_of (get_google_sheet_data_try env1 c0) = Raise e →
  (now env2 < now env1 + TTL)%Q →
  search K env2 (cache_of (search K env1 c0))
  = (Ok tt, cache_of (search K env1 c0),
     [st_error (load_failure_message env1 e)]).
Proof.
  intros HK Hmiss He Hlt.
  destruct (get_google_sheet_data_try_cases env1 c0)
    as [(ss & sh & records & m & _ & _ & _ & _ & _ & H)|(e' & n & Hn & H)];
    rewrite H in He; cbn in He; [discriminate|].
  injection He as ->.
  pose proof (get_google_sheet_data_wrapped_raise _ _ _ _ _ H) as Hw.
  pose proof (st_cache_data_miss TTL _ env1 c0 c0 _ _ Hmiss Hw) as Hrun1.
  destruct (take_sheet_calls env1 n [st_error (load_failure_message env1 e)] Hn
              ltac:(right; eauto)) as (_ & Hst & _ & _).
  rewrite Hst in Hrun1.
  rewrite (valid_imei_search_run K env1 c0 _ _ _ HK Hrun1).
  cbn [cache_of fst snd].
  assert (Hrun2 : get_google_sheet_data env2
            (Some {| cached_value := None;
                     cached_elements := [st_error (load_failure_message env1 e)];
                     expires := (now env1 + TTL)%Q |})
          = (Ok None,
             Some {| cached_value := None;
                     cached_elements := [st_error (load_failure_message env1 e)];
                     expires := (now env1 + TTL)%Q |},
             [st_error (load_failure_message env1 e)])).
  { unfold get_google_sheet_data. by rewrite st_cache_data_hit. }
  by rewrite (valid_imei_search_run K env2 _ _ _ _ HK Hrun2).
Qed.

Lemma failed_load_is_replayed_witness :
  search sample_imei env_t300
    (cache_of (search sample_imei env_no_spreadsheet None))
  = (Ok tt, cache_of (search sample_imei env_no_spreadsheet None),
     [st_error (spreadsheet_not_found_message "Inventario")]).
Proof.
  apply (failed_load_is_replayed sample_imei env_no_spreadsheet env_t300 None
           (SpreadsheetNotFound "")).
  - split; reflexivity.
  - exact I.
  - reflexivity.
  - reflexivity.
Defined.

Lemma loads_in_app (t1 t2 : list effect) :
  loads_in (t1 ++ t2) = (loads_in t1 + loads_in t2)%nat.
Proof. unfold loads_in. by rewrite filter_app, length_app. Qed.

Lemma loads_in_show_result
    (K : string) (v : option imei_map) (env : Env) (c : option CacheEntry) :
  loads_in (trace_of (show_result K v env c)) = 0%nat.
Proof.
  rewrite loads_in_sheet_calls.
  by rewrite (proj1 (show_result_no_sheet_calls K v env c)).
Qed.

(** A search served from the cache: the slot stays, the sheet is not read. *)
Lemma search_on_hit (K : string) (env : Env) (entry : CacheEntry) :
  cache_inv (Some entry) →
  (now env < expires entry)%Q →
  cache_of (search K env (Some entry)) = Some entry
  ∧ loads_in (trace_of (search K env (Some entry))) = 0%nat.
Proof.
  intros Hinv Hlt.
  destruct (search_cases K env (Some entry)) as [HK| ->];
    [|split; [done|by destruct K]].
  assert (Hrun : get_google_sheet_data env (Some entry)
                 = (Ok (cached_value entry), Some entry, cached_elements entry)).
  { unfold get_google_sheet_data. by apply st_cache_data_hit. }
  rewrite (valid_imei_search_run K env _ _ _ _ HK Hrun).
  split; [done|]. cbn [trace_of snd].
  rewrite loads_in_app, loads_in_show_result.
  by destruct (Hinv entry eq_refl) as [->|(_ & msg & ->)].
Qed.

(** A search that finds nothing to serve: one run of the loader, stored
    for [TTL] seconds from now. *)
Lemma search_on_miss (K : string) (env : Env) (c : option CacheEntry) :
  valid_imei K →
  cache_inv c →
  cache_misses env c →
  loads_in (trace_of (search K env c)) = 1%nat
  ∧ ∃ entry, cache_of (search K env c) = Some entry
             ∧ cache_inv (Some entry)
             ∧ expires entry = (now env + TTL)%Q.
Proof.
  intros HK Hinv Hmiss.
  destruct (get_google_sheet_data_on_miss env c Hmiss)
    as (v & t & _ & Hrun & _ & Hloads).
  pose proof (search_keeps_cache_inv_aux K env c Hinv) as Hinv'.
  rewrite (valid_imei_search_run K env c _ _ _ HK Hrun) in Hinv' |- *.
  cbn [trace_of cache_of fst snd] in *.
  rewrite loads_in_app, loads_in_show_result, Hloads.
  split; [done|]. by eexists.
Qed.

Lemma session_on_hits (presses : list (Env * string)) (entry : CacheEntry) :
  cache_inv (Some entry) →
  (∀ p, p ∈ presses → (now p.1 < expires entry)%Q) →
  loads_in (session presses (Some entry)).2 = 0%nat.
Proof.
  intros Hinv. induction presses as [|[env K] rest IH]; intros Hall; [done|].
  cbn [session snd].
  destruct (search_on_hit K env entry Hinv (Hall (env, K) (list_elem_of_here _ _)))
    as [-> Hzero].
  rewrite loads_in_app, Hzero. apply IH. intros p Hp. apply Hall. by right.
Qed.

(** X15.  However many times the button is pressed within one window of
    600 seconds, and whatever is typed, the sheet is read at most once. *)
Theorem session_reads_sheet_at_most_once
    (presses : list (Env * string)) (c : option CacheEntry) (t0 : Q) :
  cache_inv c →
  (∀ p, p ∈ presses → (t0 <= now p.1)%Q ∧ (now p.1 < t0 + TTL)%Q) →
  (loads_in (session presses c).2 ≤ 1)%nat.
Proof.
  revert c. induction presses as [|[env K] rest IH]; intros c Hinv Hall;
    [cbn; lia|].
  assert (Hrest : ∀ p, p ∈ rest → (t0 <= now p.1)%Q ∧ (now p.1 < t0 + TTL)%Q).
  { intros p Hp. apply Hall. by right. }
  destruct (Hall (env, K) (list_elem_of_here _ _)) as [Hlo _]. cbn [fst] in Hlo.
  cbn [session snd]. rewrite loads_in_app.
  destruct (search_cases K env c) as [HK|Hbad].
  - destruct (cache_hit_or_miss env c) as [(entry & -> & Hlt)|Hmiss].
    + destruct (search_on_hit K env entry Hinv Hlt) as [-> ->].
      by apply IH.
    + destruct (search_on_miss K env c HK Hinv Hmiss)
        as (-> & entry & -> & Hinv' & Hexp).
      rewrite (session_on_hits rest entry Hinv'); [lia|].
      intros p Hp. destruct (Hrest p Hp) as [_ Hhi]. rewrite Hexp. lra.
  - rewrite Hbad. cbn [trace_of cache_of fst snd].
    assert (loads_in [rejection K] = 0%nat) as -> by by destruct K.
    by apply IH.
Qed.

Lemma session_reads_sheet_at_most_once_witness :
  (loads_in (session [ (env_t0, sample_imei); (env_t300, "12345");
                       (env_t300, sample_imei) ] None).2 ≤ 1)%nat.
Proof.
  apply (session_reads_sheet_at_most_once _ None 0).
  - apply cache_inv_None.
  - intros p Hp. repeat (apply elem_of_cons in Hp as [->|Hp]);
      [split; [discriminate|reflexivity]..|by apply elem_of_nil in Hp].
Defined.

(** X16.  A hit whose fetch succeeds with a body of no bytes: after the
    success notice and the GET the page gets the "no PDF" warning alone —
    no error explains it and no download is offered. *)
Theorem search_empty_body
    (K : string) (env : Env) (c c' : option CacheEntry) (m : imei_map)
    (t : list effect) (pdf_url : string) (r : Response) :
  valid_imei K →
  get_google_sheet_data env c = (Ok (Some m), c', t) →
  m !! K = Some pdf_url → pdf_url ≠ "" →
  get env pdf_url = Ok r → ¬ error_status (status_code r) →
  content r = Ok [] →
  search K env c
  = (Ok tt, c',
     t ++ [ st_success (found_message K); requests_get pdf_url;
            st_warning no_pdf_message ]).
Proof.
  intros HK Hload Hm Hurl Hr Hs Hc.
  rewrite (valid_imei_search_run K env c c' _ t HK Hload).
  unfold show_result. rewrite (truthy_map_lookup m K pdf_url Hm).
  change (default ∅ (Some m) !! K) with (m !! K). rewrite Hm.
  rewrite (truthy_url_Some pdf_url Hurl).
  change (default "" (Some pdf_url)) with pdf_url.
  unfold bind, emit.
  by rewrite (download_pdf_as_bytes_ok pdf_url env c' r [] Hr Hs Hc).
Qed.

Lemma search_empty_body_witness :
  search sample_imei
    (sample_env [record (PyStr sample_imei) (PyStr sample_url)] empty_web) None
  = (Ok tt,
     Some {| cached_value := Some {[ sample_imei := sample_url ]};
             cached_elements := []; expires := (0 + TTL)%Q |},
     sheet_calls (sample_env [] ok_web)
     ++ [ st_success (found_message sample_imei); requests_get sample_url;
          st_warning no_pdf_message ]).
Proof.
  apply (search_empty_body sample_imei
           (sample_env [record (PyStr sample_imei) (PyStr sample_url)] empty_web)
           None _ {[ sample_imei := sample_url ]} _ sample_url
           {| status_code := 200; reason := "OK"; url := sample_url;
              content := Ok [] |}).
  - split; reflexivity.
  - vm_compute. reflexivity.
  - reflexivity.
  - discriminate.
  - reflexivity.
  - unfold error_status. cbn. lia.
  - reflexivity.
Defined.

(** X17.  The loader returns [None] exactly when it has drawn an error,
    and then it has drawn exactly one; when it returns a mapping it has
    drawn nothing.  The calls it made are the first of the four, in order,
    up to the step that failed. *)
Theorem load_none_iff_error_shown (env : Env) (c : option CacheEntry) :
  ∃ v n,
    value_of (get_google_sheet_data_wrapped env c) = Ok v
    ∧ (1 ≤ n ≤ 4)%nat
    ∧ sheet_calls_in (trace_of (get_google_sheet_data_wrapped env c))
      = take n (sheet_calls env)
    ∧ (v = None ↔
       ∃ msg, st_elements (trace_of (get_google_sheet_data_wrapped env c))
              = [st_error msg])
    ∧ (is_Some v ↔
       st_elements (trace_of (get_google_sheet_data_wrapped env c)) = []).
Proof.
  destruct (get_google_sheet_data_try_cases env c)
    as [(ss & sh & records & m & _ & _ & _ & _ & _ & H)|(e & n & Hn & H)].
  - rewrite (get_google_sheet_data_wrapped_ok _ _ _ _ _ H).
    exists (Some m), 4%nat. cbn [value_of trace_of fst snd].
    split; [done|]. split; [lia|]. split; [done|]. split.
    + split; [done|]. by intros [msg Hmsg].
    + split; [done|]. by eexists.
  - rewrite (get_google_sheet_data_wrapped_raise _ _ _ _ _ H).
    exists None, n. cbn [value_of trace_of fst snd].
    destruct (take_sheet_calls env n [st_error (load_failure_message env e)] Hn
                ltac:(right; eauto)) as (-> & -> & _ & _).
    split; [done|]. split; [done|]. split; [done|]. split.
    + split; [by eexists|done].
    + split; [by intros [x Hx]|done].
Qed.

(** ** The frame's data URI *)

Lemma triples_ind (P : bytes → Prop) :
  P [] → (∀ x, P [x]) → (∀ x y, P [x; y]) →
  (∀ x y z rest, P rest → P (x :: y :: z :: rest)) →
  ∀ data, P data.
Proof.
  intros H0 H1 H2 H3 data.
  assert (H : P data ∧ (∀ x, P (x :: data)) ∧ (∀ x y, P (x :: y :: data))).
  { induction data as [|z rest (IH0 & IH1 & IH2)]; [by repeat split|].
    repeat split; [apply IH1|intros x; apply IH2|].
    intros x y. by apply H3. }
  apply H.
Qed.

Lemma string_get_In (k : nat) (s : string) (ch : ascii) :
  String.get k s = Some ch → PyStr.In_string ch s.
Proof.
  revert k. induction s as [|a s IH]; intros k; [by destruct k|].
  destruct k as [|k]; cbn.
  - intros [= ->]. by left.
  - intros H. right. by eapply IH.
Qed.

Lemma is_b64_char_In (ch : ascii) :
  PyStr.In_string ch (b64_alphabet +:+ "=") → is_b64_char ch = true.
Proof.
  unfold is_b64_char. generalize (b64_alphabet +:+ "=").
  induction s as [|a s IH]; cbn; [done|].
  intros [->|Hin].
  - by rewrite Ascii.eqb_refl.
  - destruct (Ascii.eqb a ch); [done|]. by apply IH.
Qed.

Lemma b64_digit_ok (n : N) : is_b64_char (b64_digit n) = true.
Proof.
  unfold b64_digit. destruct (String.get _ _) as [ch|] eqn:Hget; [|done].
  apply is_b64_char_In.
  assert (Hin := string_get_In _ _ _ Hget).
  clear Hget. revert Hin. generalize b64_alphabet.
  induction s as [|a s IH]; cbn; [done|].
  intros [->|Hin]; [by left|right; by apply IH].
Qed.

(** X18.  The text put in the frame for the fetched bytes is well-formed
    base64: four characters for every three bytes, rounded up, each of
    them from the base64 alphabet or the padding sign. *)
Theorem b64encode_well_formed (data : bytes) :
  String.length (b64encode data) = (4 * ((length data + 2) / 3))%nat
  ∧ PyStr.all_chars is_b64_char (b64encode data) = true.
Proof.
  induction data as [|x|x y|x y z rest [IHlen IHchars]] using triples_ind.
  - done.
  - split; [done|]. cbn [b64encode PyStr.all_chars].
    by rewrite !b64_digit_ok.
  - split; [done|]. cbn [b64encode PyStr.all_chars].
    by rewrite !b64_digit_ok.
  - cbn [b64encode PyStr.all_chars String.length length].
    rewrite !b64_digit_ok, IHchars, IHlen. split; [|done].
    replace (S (S (S (length rest))) + 2)%nat
      with (1 * 3 + (length rest + 2))%nat by lia.
    rewrite Nat.div_add_l by done. lia.
Qed.
